(** * RepetierServer print-host client: connectivity probe, upload and URL helpers

  Shallow embedding of [src/slic3r/Utils/RepetierServer.cpp].

  - [std::string] and [wxString] are byte strings ([string]); a [wxString]
    is represented by its UTF-8 encoding, so [GUI::from_u8] and the implicit
    conversions between the two are the identity.
  - [unsigned] HTTP status codes are [N] (the code does no arithmetic on them).
  - [boost::optional<T>] is [option T].
  - The closures handed to [Http] capture the locals [res] and [msg] by
    reference; they are state transformers on a frame holding those locals
    next to the observable world.
  - Everything the component does to its surroundings (log records, requests
    handed to the transport, invocations of the caller's callbacks) is
    recorded, in order, in the world's trace. *)

From Stdlib Require Import String Ascii List Bool NArith Lia.
Import ListNotations.

Local Open Scope list_scope.
Local Open Scope string_scope.

(** ** Strings *)

Module Str.

(** [s.find(needle)]: position of the first occurrence, [None] for [npos]. *)
Definition find (s needle : string) : option nat := index 0 needle s.

(** [s.find(needle) == 0]. *)
Definition found_at_0 (r : option nat) : bool :=
  match r with
  | Some O => true
  | _ => false
  end.

(** [s.back()]: the last character.  The standard leaves it undefined on
    the empty string; [None] stands for that case. *)
Fixpoint back (s : string) : option ascii :=
  match s with
  | EmptyString => None
  | String c EmptyString => Some c
  | String _ rest => back rest
  end.

(** [s.empty()]. *)
Definition empty (s : string) : bool :=
  match s with
  | EmptyString => true
  | String _ _ => false
  end.

(** [boost::starts_with(s, p)]. *)
Definition starts_with (s p : string) : bool := prefix p s.

(** [needle] occurs somewhere in [s]. *)
Definition contains (s needle : string) : Prop :=
  exists pre post, s = pre ++ needle ++ post.

End Str.

(** ** [boost::format]

  [(boost::format(fmt) % a1 % ... % an).str()] for the directive forms this
  file uses: the positional [%N%] (one digit, counted from 1), the
  printf-style [%s], which takes the arguments in order, and the escape [%%].
  Every call site passes a literal format with as many arguments as it has
  directives, so the arity exceptions of the library do not arise. *)

Module Format.

Definition digit (c : ascii) : option nat :=
  match c with
  | "1" => Some 0 | "2" => Some 1 | "3" => Some 2
  | "4" => Some 3 | "5" => Some 4 | "6" => Some 5
  | "7" => Some 6 | "8" => Some 7 | "9" => Some 8
  | _ => None
  end%char%nat.

Fixpoint render (fmt : string) (args : list string) (next : nat) : string :=
  match fmt with
  | EmptyString => EmptyString
  | String c rest =>
      if Ascii.eqb c "%" then
        match rest with
        | String d rest' =>
            if Ascii.eqb d "%" then String "%" (render rest' args next)
            else if Ascii.eqb d "s" then nth next args "" ++ render rest' args (S next)
            else
              match digit d, rest' with
              | Some i, String e rest'' =>
                  if Ascii.eqb e "%" then nth i args "" ++ render rest'' args next
                  else String c (render rest args next)
              | _, _ => String c (render rest args next)
              end
        | EmptyString => String c EmptyString
        end
      else String c (render rest args next)
  end.

Definition str (fmt : string) (args : list string) : string := render fmt args 0.

End Format.

Definition boost_format : string -> list string -> string := Format.str.

(** ** The client *)

Definition wxString := string.

Record RepetierServer := {
  host : string;
  apikey : string;
  cafile : string;
  printername : string
}.

Definition get_name : string := "RepetierServer".

(** [RepetierServer::make_url]. *)
Definition make_url (self : RepetierServer) (path : string) : string :=
  if Str.found_at_0 (Str.find (host self) "http://")
     || Str.found_at_0 (Str.find (host self) "https://") then
    match Str.back (host self) with
    | Some "/"%char => boost_format "%1%%2%" [host self; path]
    | _ => boost_format "%1%/%2%" [host self; path]
    end
  else
    boost_format "http://%1%/%2%" [host self; path].

(** [RepetierServer::validate_version_text]. *)
Definition validate_version_text (version_text : option string) : bool :=
  match version_text with
  | Some text => Str.starts_with text "Repetier-Server"
  | None => true
  end.

(** ** Observable world *)

(** [boost::log::trivial] severity levels used by the client. *)
Module trivial.
Inductive severity_level := debug | info | error.
End trivial.

(** One operand streamed into a log record's [boost::format]. *)
Inductive LogArg :=
  | AStr (s : string)
  | ANum (n : N)
  | ABool (b : bool).

Inductive Method := GET | POST.

Inductive FormPart :=
  | Field (name contents : string)
  | File (name path filename : string).

(** What an [Http] object hands to the transport when it is performed. *)
Record Request := {
  method : Method;
  url : string;
  headers : list (string * string);
  ca : option string;
  form : list FormPart
}.

(** [Http::Progress]. *)
Record Progress := {
  dltotal : N;
  dlnow : N;
  ultotal : N;
  ulnow : N
}.

(** A callback of an [Http] object, with the arguments of one invocation. *)
Inductive Callback :=
  | CbComplete (body : string) (status : N)
  | CbError (body error : string) (status : N)
  | CbProgress (progress : Progress) (cancel : bool).

Inductive Event :=
  | Logged (sev : trivial.severity_level) (fmt : string) (args : list LogArg)
  | Performed (r : Request)
  | Delivered (cb : Callback)
  | ProgressCalled (progress : Progress) (cancel_before cancel_after : bool)
  | ErrorCalled (msg : wxString).

(** Modelled from the spec: the HTTP transport engine ([Http.cpp]) is not part
  of this file.  Per the spec it is a black box that reports progress "at
  its own discretion" through the progress callback, whose cancel flag it
  reads back, and finishes with the terminal callback: completion, error,
  or none at all.  A script is one such behaviour; what follows a progress
  report may depend on the flag the callback leaves behind. *)
Inductive HttpScript :=
  | Complete (body : string) (status : N)
  | Error (body error : string) (status : N)
  | Silent
  | Progressing (progress : Progress) (cancel : bool) (next : bool -> HttpScript).

(** [boost::property_tree::ptree] with [std::string] data. *)
#[warnings="-register-all"]
Inductive ptree :=
  | Node (data : string) (children : list (string * ptree)).

(** [ptree.get_optional<std::string>(key)] for a key without path separator:
  the data of the first child stored under [key]. *)
Definition get_optional (t : ptree) (key : string) : option string :=
  match t with
  | Node _ children =>
      match List.find (fun kv => String.eqb (fst kv) key) children with
      | Some (_, Node data _) => Some data
      | None => None
      end
  end.

(** Exceptions derived from [std::exception] that the client can meet. *)
Inductive std_exception :=
  | json_parser_error (what : string).

Inductive Except (A : Type) :=
  | Value (a : A)
  | Raise (e : std_exception).
Arguments Value {A} a.
Arguments Raise {A} e.

(** [L(s)] marks a literal for the translators and expands to [s]. *)
Definition L (s : string) : string := s.

(** [_utf8(s)] looks [s] up in the translation catalogue.  The catalogue is a
  run-time resource outside the program; the development is carried out in
  the source locale, where the lookup returns its key. *)
Definition _utf8 (s : string) : string := s.

(** [GUI::from_u8]: see the representation of [wxString]. *)
Definition from_u8 (s : string) : wxString := s.

Record PrintHostUpload := {
  source_path : string;
  upload_path : string;
  start_print : bool
}.

(** [wxString::ToUTF8]: see the representation of [wxString]. *)
Definition ToUTF8 (s : wxString) : string := s.

(** The literal ["%s: %s\n\n%s"] of [get_test_failed_msg]; [\n] is the line
    feed, character 10. *)
Definition test_failed_format : string :=
  Eval cbv in ("%s: %s" ++ String "010" (String "010" "%s")).

(** [RepetierServer::get_test_failed_msg]. *)
Definition get_test_failed_msg (msg : wxString) : wxString :=
  from_u8 (boost_format test_failed_format
             [_utf8 (L "Could not connect to RepetierServer");
              ToUTF8 msg;
              _utf8 (L "Note: Repetier-Server version at least 0.92.2 is required.")]).

(** ** The URL rule in the words of the specification *)

(** [h] ends with the character [c]. *)
Definition ends_with_char (h : string) (c : ascii) : bool :=
  match get (String.length h - 1) h with
  | Some x => Ascii.eqb x c
  | None => false
  end.

(** [h] carries one of the two schemes. *)
Definition has_scheme (h : string) : bool :=
  prefix "http://" h || prefix "https://" h.

(** A host with a scheme is concatenated with the path, with a separating
    slash only if the host does not end with one; a host without scheme is
    prefixed with [http://] and joined with a slash. *)
Definition makeUrl_spec (h path : string) : string :=
  if has_scheme h then
    if ends_with_char h "/" then h ++ path else h ++ "/" ++ path
  else "http://" ++ h ++ "/" ++ path.

(** The terminal outcome of a script when no progress callback is registered:
    the cancel flag comes back to the transport as it sent it. *)
Fixpoint settle (s : HttpScript) : HttpScript :=
  match s with
  | Progressing _ cancel next => settle (next cancel)
  | _ => s
  end.

(** The messages handed to the caller's error callback, in order. *)
Definition error_calls (tr : list Event) : list wxString :=
  flat_map (fun e => match e with ErrorCalled m => [m] | _ => [] end) tr.

(** The invocations of the caller's progress callback that left the cancel
    flag set. *)
Definition cancelled (tr : list Event) : Prop :=
  exists progress cancel_before, In (ProgressCalled progress cancel_before true) tr.

Definition is_post (r : Request) : bool :=
  match method r with
  | POST => true
  | GET => false
  end.

(** The requests handed to the transport, in order. *)
Definition performed (tr : list Event) : list Request :=
  flat_map (fun e => match e with Performed r => [r] | _ => [] end) tr.

(** ** Sample environments *)

Module Sample.

Definition dq : string := String (ascii_of_nat 34) "".

Definition member (key value : string) : string := dq ++ key ++ dq ++ ":" ++ dq ++ value ++ dq.

(** The response bodies of the specification's examples. *)
Definition body_repetier : string :=
  "{" ++ member "version" "1.0" ++ "," ++ member "name" "Repetier-Server 0.92.2" ++ "}".
Definition body_octoprint : string :=
  "{" ++ member "version" "1.0" ++ "," ++ member "name" "OctoPrint" ++ "}".
Definition body_anonymous : string := "{" ++ member "version" "1.0" ++ "}".
Definition body_versionless : string := "{" ++ member "name" "Repetier-Server 0.92.2" ++ "}".
Definition body_html : string := "<html>It works!</html>".

Definition leaf (key value : string) : string * ptree := (key, Node value []).

(** A reader that knows the bodies above and rejects everything else. *)
Definition read_json (body : string) : Except ptree :=
  if String.eqb body body_repetier then
    Value (Node "" [leaf "version" "1.0"; leaf "name" "Repetier-Server 0.92.2"])
  else if String.eqb body body_octoprint then
    Value (Node "" [leaf "version" "1.0"; leaf "name" "OctoPrint"])
  else if String.eqb body body_anonymous then
    Value (Node "" [leaf "version" "1.0"])
  else if String.eqb body body_versionless then
    Value (Node "" [leaf "name" "Repetier-Server 0.92.2"])
  else Raise (json_parser_error "expected object or array").

(** A stand-in for the error formatter of the base class. *)
Definition format_error (body error : string) (status : N) : wxString :=
  if N.eqb status 0 then error else "HTTP error: " ++ body.

Definition filename (path : string) : string := path.
Definition parent_path (path : string) : string := "".

Definition server : RepetierServer :=
  {| host := "example.com"; apikey := "secret"; cafile := ""; printername := "Cartesian" |}.

Definition job : PrintHostUpload :=
  {| source_path := "/tmp/benchy.gcode"; upload_path := "benchy.gcode"; start_print := true |}.

Definition halfway : Progress := {| dltotal := 0; dlnow := 0; ultotal := 100; ulnow := 50 |}.

(** A network whose probe endpoint answers with [body] and whose upload
    endpoint reports progress once, then stops silently if the upload was
    cancelled and completes otherwise. *)
Definition net_answering (body : string) (r : Request) : HttpScript :=
  match method r with
  | GET => Complete body 200
  | POST =>
      Progressing halfway false
        (fun cancel => if cancel then Silent else Complete "{}" 200)
  end.

(** A network on which every connection is refused. *)
Definition net_down (r : Request) : HttpScript := Error "" "Connection refused" 0.

(** Callers: the state counts the progress reports seen so far. *)
Definition watch (progress : Progress) (cancel : bool) (seen : nat) : bool * nat :=
  (cancel, S seen).
Definition cancel_at_once (progress : Progress) (cancel : bool) (seen : nat) : bool * nat :=
  (true, S seen).
Definition ignore_error (msg : wxString) (seen : nat) : nat := seen.

End Sample.

Section Client.

(** State of the caller, which its callbacks read and update. *)
Variable U : Type.

(** The network: how the transport behaves on each request. *)
Variable net : Request -> HttpScript.

(** [pt::read_json] of the Boost library on a response body; it throws
    [json_parser_error] on a body that is not JSON. *)
Variable read_json : string -> Except ptree.

(** [PrintHost::format_error(body, error, status)], declared in the base
    class and defined outside this file. *)
Variable format_error : string -> string -> N -> wxString.

(** [boost::filesystem::path::filename] and [parent_path], on paths
    represented by their [string()]. *)
Variable fs_filename : string -> string.
Variable fs_parent_path : string -> string.

Record World := {
    user : U;
    trace : list Event
}.

Definition ProgressFn := Progress -> bool -> U -> bool * U.
Definition ErrorFn := wxString -> U -> U.

(** A frame: the locals captured by reference, and the world. *)
Definition Frame (Loc : Type) : Type := Loc * World.

Definition emit {Loc} (e : Event) (fr : Frame Loc) : Frame Loc :=
  (fst fr, {| user := user (snd fr); trace := (trace (snd fr) ++ [e])%list |}).

(** [BOOST_LOG_TRIVIAL(sev) << boost::format(fmt) % a1 % ... % an]. *)
Definition BOOST_LOG_TRIVIAL {Loc} (sev : trivial.severity_level) (fmt : string)
    (args : list LogArg) (fr : Frame Loc) : Frame Loc :=
  emit (Logged sev fmt args) fr.

(** *** The [Http] request builder *)

Record Http (Loc : Type) := {
    request : Request;
    completefn : option (string -> N -> Frame Loc -> Frame Loc);
    errorfn : option (string -> string -> N -> Frame Loc -> Frame Loc);
    progressfn : option (Progress -> bool -> Frame Loc -> bool * Frame Loc)
}.
Arguments request {Loc} h.
Arguments completefn {Loc} h.
Arguments errorfn {Loc} h.
Arguments progressfn {Loc} h.

Definition Http_new {Loc} (m : Method) (u : string) : Http Loc :=
  {| request := {| method := m; url := u; headers := []; ca := None; form := [] |};
     completefn := None; errorfn := None; progressfn := None |}.

Definition Http_get {Loc} (u : string) : Http Loc := Http_new GET u.
Definition Http_post {Loc} (u : string) : Http Loc := Http_new POST u.

Definition with_request {Loc} (f : Request -> Request) (h : Http Loc) : Http Loc :=
  {| request := f (request h); completefn := completefn h;
     errorfn := errorfn h; progressfn := progressfn h |}.

Definition header {Loc} (name value : string) (h : Http Loc) : Http Loc :=
  with_request (fun r => {| method := method r; url := url r;
                            headers := (headers r ++ [(name, value)])%list;
                            ca := ca r; form := form r |}) h.

Definition ca_file {Loc} (file : string) (h : Http Loc) : Http Loc :=
  with_request (fun r => {| method := method r; url := url r; headers := headers r;
                            ca := Some file; form := form r |}) h.

Definition form_part {Loc} (part : FormPart) (h : Http Loc) : Http Loc :=
  with_request (fun r => {| method := method r; url := url r; headers := headers r;
                            ca := ca r; form := (form r ++ [part])%list |}) h.

Definition form_add {Loc} (name contents : string) (h : Http Loc) : Http Loc :=
  form_part (Field name contents) h.

Definition form_add_file {Loc} (name path filename : string) (h : Http Loc) : Http Loc :=
  form_part (File name path filename) h.

Definition on_complete {Loc} (fn : string -> N -> Frame Loc -> Frame Loc)
    (h : Http Loc) : Http Loc :=
  {| request := request h; completefn := Some fn;
     errorfn := errorfn h; progressfn := progressfn h |}.

Definition on_error {Loc} (fn : string -> string -> N -> Frame Loc -> Frame Loc)
    (h : Http Loc) : Http Loc :=
  {| request := request h; completefn := completefn h;
     errorfn := Some fn; progressfn := progressfn h |}.

Definition on_progress {Loc} (fn : Progress -> bool -> Frame Loc -> bool * Frame Loc)
    (h : Http Loc) : Http Loc :=
  {| request := request h; completefn := completefn h;
     errorfn := errorfn h; progressfn := Some fn |}.

(** Modelled from the spec: the transport plays its script against the
    callbacks registered on the request; a callback that was not registered
    is skipped, and the cancel flag then stays as the transport set it. *)
Fixpoint deliver {Loc} (h : Http Loc) (s : HttpScript) (fr : Frame Loc) : Frame Loc :=
  match s with
  | Complete body status =>
      match completefn h with
      | Some fn => fn body status (emit (Delivered (CbComplete body status)) fr)
      | None => fr
      end
  | Error body error status =>
      match errorfn h with
      | Some fn => fn body error status (emit (Delivered (CbError body error status)) fr)
      | None => fr
      end
  | Silent => fr
  | Progressing progress cancel next =>
      match progressfn h with
      | Some fn =>
          let '(cancel', fr') :=
            fn progress cancel (emit (Delivered (CbProgress progress cancel)) fr) in
          deliver h (next cancel') fr'
      | None => deliver h (next cancel) fr
      end
  end.

(** [Http::perform_sync]: the request goes out, and the call returns when
    the transport has finished with it. *)
Definition perform_sync {Loc} (h : Http Loc) (fr : Frame Loc) : Frame Loc :=
  deliver h (net (request h)) (emit (Performed (request h)) fr).

(** *** [RepetierServer] *)

(** [RepetierServer::set_auth]. *)
Definition set_auth {Loc} (self : RepetierServer) (http : Http Loc) : Http Loc :=
  let http := header "X-Api-Key" (apikey self) http in
  if negb (Str.empty (cafile self)) then ca_file (cafile self) http else http.

(** The locals of [test] that its closures capture: [res] and [msg]. *)
Definition TestLocals : Type := bool * wxString.

Definition test_on_error (name : string) (body error : string) (status : N)
    (fr : Frame TestLocals) : Frame TestLocals :=
  let fr := BOOST_LOG_TRIVIAL trivial.error
              "%1%: Error getting version: %2%, HTTP %3%, body: `%4%`"
              [AStr name; AStr error; ANum status; AStr body] fr in
  let '((_, _), w) := fr in
  ((false, format_error body error status), w).

(** The [try] block of the completion closure.  [read_json] is the only
    operation in it that throws, and it runs before [res] or [msg] is
    touched; the early [return] leaves the closure with [msg] as it was. *)
Definition test_try (body : string) (fr : Frame TestLocals) : Except (Frame TestLocals) :=
  match read_json body with
  | Raise e => Raise e
  | Value ptree =>
      let '((_, msg), w) := fr in
      match get_optional ptree "version" with
      | None => Value ((false, msg), w)
      | Some _ =>
          let text := get_optional ptree "name" in
          let res := validate_version_text text in
          if negb res then
            Value ((res,
                    from_u8 (boost_format (_utf8 (L "Mismatched type of print host: %s"))
                               [match text with
                                | Some t => t
                                | None => "Repetier-Server"
                                end])), w)
          else Value ((res, msg), w)
      end
  end.

Definition test_on_complete (name : string) (body : string) (status : N)
    (fr : Frame TestLocals) : Frame TestLocals :=
  let fr := BOOST_LOG_TRIVIAL trivial.debug "%1%: Got version: %2%"
              [AStr name; AStr body] fr in
  match test_try body fr with
  | Value fr' => fr'
  | Raise _ =>
      let '((_, _), w) := fr in
      ((false, "Could not parse server response"), w)
  end.

(** [RepetierServer::test]: [msg] is the caller's string, passed by
    reference; the result carries its final value. *)
Definition test (self : RepetierServer) (msg : wxString) (w : World)
    : bool * wxString * World :=
  let name := get_name in
  let res := true in
  let url := make_url self "printer/info" in
  let fr := BOOST_LOG_TRIVIAL trivial.info "%1%: Get version at: %2%"
              [AStr name; AStr url] ((res, msg), w) in
  let http := Http_get url in
  let http := set_auth self http in
  let http := on_error (test_on_error name) http in
  let http := on_complete (test_on_complete name) http in
  let '((res, msg), w) := perform_sync http fr in
  (res, msg, w).

(** Invocation of the caller's error callback. *)
Definition call_error_fn (error_fn : ErrorFn) (msg : wxString) (w : World) : World :=
  {| user := error_fn msg (user w); trace := (trace w ++ [ErrorCalled msg])%list |}.

(** Invocation of the caller's progress callback on [cancel], by reference. *)
Definition call_progress_fn (prorgess_fn : ProgressFn) (progress : Progress)
    (cancel : bool) (w : World) : bool * World :=
  let '(cancel', u) := prorgess_fn progress cancel (user w) in
  (cancel', {| user := u;
               trace := (trace w ++ [ProgressCalled progress cancel cancel'])%list |}).

Definition upload_on_complete (name : string) (body : string) (status : N)
    (fr : Frame bool) : Frame bool :=
  BOOST_LOG_TRIVIAL trivial.debug "%1%: File uploaded: HTTP %2%: %3%"
    [AStr name; ANum status; AStr body] fr.

Definition upload_on_error (name : string) (error_fn : ErrorFn)
    (body error : string) (status : N) (fr : Frame bool) : Frame bool :=
  let fr := BOOST_LOG_TRIVIAL trivial.error
              "%1%: Error uploading file: %2%, HTTP %3%, body: `%4%`"
              [AStr name; AStr error; ANum status; AStr body] fr in
  let '(_, w) := fr in
  let w := call_error_fn error_fn (format_error body error status) w in
  (false, w).

Definition upload_on_progress (prorgess_fn : ProgressFn)
    (progress : Progress) (cancel : bool) (fr : Frame bool) : bool * Frame bool :=
  let '(res, w) := fr in
  let '(cancel, w) := call_progress_fn prorgess_fn progress cancel w in
  if cancel then
    (* Upload was canceled *)
    let fr := BOOST_LOG_TRIVIAL trivial.info "RepetierSerer: Upload canceled" [] (res, w) in
    let '(_, w) := fr in
    (cancel, (false, w))
  else (cancel, (res, w)).

(** The path that [upload] hands to [make_url]. *)
Definition upload_url_path (self : RepetierServer) (upload_data : PrintHostUpload) : string :=
  boost_format "/printer/%1%/%2%"
    [if start_print upload_data then "job" else "model"; printername self].

(** [RepetierServer::upload]. *)
Definition upload (self : RepetierServer) (upload_data : PrintHostUpload)
    (prorgess_fn : ProgressFn) (error_fn : ErrorFn) (w : World) : bool * World :=
  let name := get_name in
  let upload_filename := fs_filename (upload_path upload_data) in
  let upload_parent_path := fs_parent_path (upload_path upload_data) in
  let test_msg : wxString := "" in
  let '(ok, test_msg, w) := test self test_msg w in
  if negb ok then
    let w := call_error_fn error_fn test_msg w in
    (false, w)
  else
    let res := true in
    let url := make_url self (upload_url_path self upload_data) in
    let fr := BOOST_LOG_TRIVIAL trivial.info
                "%1%: Uploading file %2% at %3%, filename: %4%, path: %5%, print: %6%"
                [AStr name; AStr (source_path upload_data); AStr url;
                 AStr upload_filename; AStr upload_parent_path;
                 ABool (start_print upload_data)] (res, w) in
    let http := Http_post url in
    let http := set_auth self http in
    let http := form_add "a" "upload" http in
    let http := form_add_file "filename" (source_path upload_data) upload_filename http in
    let http := on_complete (upload_on_complete name) http in
    let http := on_error (upload_on_error name error_fn) http in
    let http := on_progress (upload_on_progress prorgess_fn) http in
    perform_sync http fr.

(** A world in which nothing has been observed yet. *)
Definition start (u : U) : World := {| user := u; trace := [] |}.


(** The request that [test] hands to the transport. *)
Definition test_request (self : RepetierServer) : Request :=
  request (set_auth self (@Http_get TestLocals (make_url self "printer/info"))).

(** The request that [upload] hands to the transport after a passed probe. *)
Definition upload_request (self : RepetierServer) (upload_data : PrintHostUpload) : Request :=
  request
    (form_add_file "filename" (source_path upload_data) (fs_filename (upload_path upload_data))
       (form_add "a" "upload"
          (set_auth self
             (@Http_post bool (make_url self (upload_url_path self upload_data)))))).

(** The transport's error reports, formatted as the client formats them. *)
Definition error_reports (tr : list Event) : list wxString :=
  flat_map (fun e => match e with
                     | Delivered (CbError body error status) =>
                         [format_error body error status]
                     | _ => []
                     end) tr.

(** ** Vocabulary of the statements *)

(** The frame in which the transport starts to answer the probe. *)
Definition test_entry (self : RepetierServer) (msg : wxString) (w : World)
    : Frame TestLocals :=
  emit (Performed (test_request self))
    (BOOST_LOG_TRIVIAL trivial.info "%1%: Get version at: %2%"
       [AStr get_name; AStr (make_url self "printer/info")] ((true, msg), w)).

Definition test_exit (fr : Frame TestLocals) : bool * wxString * World :=
  (fst (fst fr), snd (fst fr), snd fr).

Definition res_of (r : bool * wxString * World) : bool := fst (fst r).
Definition msg_of (r : bool * wxString * World) : wxString := snd (fst r).

(** What the completion closure leaves in [res] and [msg], by the shape of
    the body. *)
Definition classify (body : string) (msg : wxString) : bool * wxString :=
  match read_json body with
  | Raise _ => (false, "Could not parse server response")
  | Value ptree =>
      match get_optional ptree "version" with
      | None => (false, msg)
      | Some _ =>
          match get_optional ptree "name" with
          | None => (true, msg)
          | Some name =>
              if prefix "Repetier-Server" name then (true, msg)
              else (false, "Mismatched type of print host: " ++ name)
          end
      end
  end.

(** What the probe adds to the trace after its request, by the transport's
    terminal outcome. *)
Definition test_tail (s : HttpScript) : list Event :=
  match s with
  | Complete body status =>
      [Delivered (CbComplete body status);
       Logged trivial.debug "%1%: Got version: %2%" [AStr get_name; AStr body]]
  | Error body error status =>
      [Delivered (CbError body error status);
       Logged trivial.error "%1%: Error getting version: %2%, HTTP %3%, body: `%4%`"
         [AStr get_name; AStr error; ANum status; AStr body]]
  | _ => []
  end.

Definition cancel_record : Event :=
  Logged trivial.info "RepetierSerer: Upload canceled" [].

(** The request object of [upload], with its three closures. *)
Definition upload_http (self : RepetierServer) (upload_data : PrintHostUpload)
    (prorgess_fn : ProgressFn) (error_fn : ErrorFn) : Http bool :=
  on_progress (upload_on_progress prorgess_fn)
    (on_error (upload_on_error get_name error_fn)
       (on_complete (upload_on_complete get_name)
          (form_add_file "filename" (source_path upload_data)
             (fs_filename (upload_path upload_data))
             (form_add "a" "upload"
                (set_auth self
                   (Http_post (make_url self (upload_url_path self upload_data)))))))).

(** The frame in which the transport starts to carry the upload. *)
Definition upload_entry (self : RepetierServer) (upload_data : PrintHostUpload)
    (w : World) : Frame bool :=
  emit (Performed (upload_request self upload_data))
    (BOOST_LOG_TRIVIAL trivial.info
       "%1%: Uploading file %2% at %3%, filename: %4%, path: %5%, print: %6%"
       [AStr get_name; AStr (source_path upload_data);
        AStr (make_url self (upload_url_path self upload_data));
        AStr (fs_filename (upload_path upload_data));
        AStr (fs_parent_path (upload_path upload_data));
        ABool (start_print upload_data)] (true, w)).

(** What holds of the upload's frame throughout the exchange: the caller's
    error callback has been invoked for the transport's error reports and for
    nothing else, and once a progress call has left the cancel flag set,
    [res] is false and the cancellation is on record. *)
Definition upload_inv (fr : Frame bool) : Prop :=
  error_calls (trace (snd fr)) = error_reports (trace (snd fr))
  /\ (cancelled (trace (snd fr)) -> fst fr = false /\ In cancel_record (trace (snd fr))).

(** The progress reports that reached the caller's progress callback: the
    snapshot and the cancel flag as handed over, in order. *)
Definition progress_calls (tr : list Event) : list (Progress * bool) :=
  flat_map (fun e => match e with
                     | ProgressCalled progress cancel _ => [(progress, cancel)]
                     | _ => []
                     end) tr.

(** The progress reports of the transport, in order. *)
Definition progress_reports (tr : list Event) : list (Progress * bool) :=
  flat_map (fun e => match e with
                     | Delivered (CbProgress progress cancel) => [(progress, cancel)]
                     | _ => []
                     end) tr.

(** The log record of a cancellation. *)
Definition is_cancel_record (e : Event) : bool :=
  match e with
  | Logged trivial.info fmt [] => String.eqb fmt "RepetierSerer: Upload canceled"
  | _ => false
  end.

(** An invocation of the progress callback that left the cancel flag set. *)
Definition is_cancelling (e : Event) : bool :=
  match e with
  | ProgressCalled _ _ cancel_after => cancel_after
  | _ => false
  end.

(** The TLS trust that [set_auth] configures on a fresh request. *)
Definition auth_ca (self : RepetierServer) : option string :=
  if Str.empty (cafile self) then None else Some (cafile self).

(** [res] is still true exactly when no error was reported and no progress
    call left the cancel flag set. *)
Definition res_explained (fr : Frame bool) : Prop :=
  fst fr = true
  <-> error_reports (trace (snd fr)) = [] /\ existsb is_cancelling (trace (snd fr)) = false.

(** Every progress report reached the caller as it came; every cancelling
    call is on record. *)
Definition progress_faithful (fr : Frame bool) : Prop :=
  progress_calls (trace (snd fr)) = progress_reports (trace (snd fr))
  /\ List.length (filter is_cancel_record (trace (snd fr)))
     = List.length (filter is_cancelling (trace (snd fr))).

(** ** Facts about strings and formats *)

Lemma append_empty_r (s : string) : s ++ "" = s.
Proof. induction s as [|c s IH]; simpl; [reflexivity | now rewrite IH]. Qed.

Lemma append_assoc (a b c : string) : (a ++ b) ++ c = a ++ (b ++ c).
Proof. induction a as [|x a IH]; simpl; [reflexivity | now rewrite IH]. Qed.

Lemma prefix_split (p s : string) :
  prefix p s = true <-> exists rest, s = p ++ rest.
Proof.
  revert s; induction p as [|a p IH]; intros s.
  - destruct s; simpl; split; intros; eauto.
  - destruct s as [|b s]; simpl.
    + split; [discriminate | intros [r Hr]; discriminate].
    + destruct (ascii_dec a b) as [->|Hne].
      * rewrite IH. split; intros [r Hr]; exists r; congruence.
      * split; [discriminate | intros [r Hr]; congruence].
Qed.

Lemma find_at_0_prefix (s needle : string) :
  Str.found_at_0 (Str.find s needle) = prefix needle s.
Proof.
  unfold Str.find. destruct s as [|b s].
  - destruct needle; reflexivity.
  - cbn [index]. destruct (prefix needle (String b s)); [reflexivity|].
    destruct (index 0 needle s); reflexivity.
Qed.

Lemma back_get_last (s : string) : Str.back s = get (String.length s - 1) s.
Proof.
  induction s as [|c s IH]; [reflexivity|].
  destruct s as [|d s]; [reflexivity|].
  change (Str.back (String c (String d s))) with (Str.back (String d s)).
  rewrite IH. cbn [String.length Nat.sub get].
  destruct (String.length s); reflexivity.
Qed.

Lemma back_slash (s : string) :
  match Str.back s with Some "/"%char => true | _ => false end = ends_with_char s "/".
Proof.
  unfold ends_with_char. rewrite <- back_get_last.
  destruct (Str.back s) as [c|]; [|reflexivity].
  destruct (Ascii.eqb_spec c "/") as [->|Hne]; [reflexivity|].
  destruct c as [[] [] [] [] [] [] [] []]; try reflexivity. now elim Hne.
Qed.

Lemma format_join (a b : string) : boost_format "%1%%2%" [a; b] = a ++ b.
Proof. cbn. now rewrite append_empty_r. Qed.

Lemma format_join_slash (a b : string) : boost_format "%1%/%2%" [a; b] = a ++ "/" ++ b.
Proof. cbn. now rewrite append_empty_r. Qed.

Lemma format_join_http (a b : string) :
  boost_format "http://%1%/%2%" [a; b] = "http://" ++ a ++ "/" ++ b.
Proof. cbn. now rewrite append_empty_r. Qed.

Lemma format_upload_path (seg name : string) :
  boost_format "/printer/%1%/%2%" [seg; name] = "/printer/" ++ seg ++ "/" ++ name.
Proof. cbn. now rewrite append_empty_r. Qed.

Lemma format_mismatch (name : string) :
  boost_format (_utf8 (L "Mismatched type of print host: %s")) [name]
  = "Mismatched type of print host: " ++ name.
Proof. cbn. now rewrite append_empty_r. Qed.

Lemma make_url_refines (self : RepetierServer) (path : string) :
  make_url self path = makeUrl_spec (host self) path.
Proof.
  unfold make_url, makeUrl_spec, has_scheme.
  rewrite !find_at_0_prefix, <- back_slash.
  destruct (prefix "http://" (host self) || prefix "https://" (host self)).
  - destruct (Str.back (host self)) as [c|]; [|apply format_join_slash].
    destruct c as [[] [] [] [] [] [] [] []];
      first [apply format_join | apply format_join_slash].
  - apply format_join_http.
Qed.

(** ** Facts about the transport *)

Lemma deliver_settle {Loc} (h : Http Loc) (s : HttpScript) (fr : Frame Loc) :
  progressfn h = None -> deliver h s fr = deliver h (settle s) fr.
Proof.
  intros Hnone. induction s as [ | | | progress cancel next IH]; try reflexivity.
  cbn [deliver settle]. rewrite Hnone. apply IH.
Qed.

(** An invariant of the frame that every registered callback preserves
    survives a whole exchange. *)
Lemma deliver_invariant {Loc} (Inv : Frame Loc -> Prop) (h : Http Loc) :
  (forall fn body status fr, completefn h = Some fn -> Inv fr ->
     Inv (fn body status (emit (Delivered (CbComplete body status)) fr))) ->
  (forall fn body error status fr, errorfn h = Some fn -> Inv fr ->
     Inv (fn body error status (emit (Delivered (CbError body error status)) fr))) ->
  (forall fn progress cancel fr, progressfn h = Some fn -> Inv fr ->
     Inv (snd (fn progress cancel (emit (Delivered (CbProgress progress cancel)) fr)))) ->
  forall s fr, Inv fr -> Inv (deliver h s fr).
Proof.
  intros Hc He Hp.
  induction s as [body status | body error status | | progress cancel next IH];
    intros fr Hfr; cbn [deliver].
  - destruct (completefn h) as [fn|] eqn:E; [now apply Hc | exact Hfr].
  - destruct (errorfn h) as [fn|] eqn:E; [now apply He | exact Hfr].
  - exact Hfr.
  - destruct (progressfn h) as [fn|] eqn:E; [|now apply IH].
    specialize (Hp fn progress cancel fr eq_refl Hfr).
    destruct (fn progress cancel _) as [cancel' fr']. now apply IH.
Qed.

Lemma set_auth_callbacks {Loc} (self : RepetierServer) (h : Http Loc) :
  completefn (set_auth self h) = completefn h
  /\ errorfn (set_auth self h) = errorfn h
  /\ progressfn (set_auth self h) = progressfn h.
Proof. unfold set_auth. destruct (negb (Str.empty (cafile self))); now cbn. Qed.

Lemma set_auth_request {Loc} (self : RepetierServer) (h : Http Loc) :
  method (request (set_auth self h)) = method (request h)
  /\ url (request (set_auth self h)) = url (request h)
  /\ form (request (set_auth self h)) = form (request h).
Proof. unfold set_auth. destruct (negb (Str.empty (cafile self))); now cbn. Qed.

(** ** Facts about the probe *)

Lemma test_unfold (self : RepetierServer) (msg : wxString) (w : World) :
  test self msg w =
  test_exit
    match settle (net (test_request self)) with
    | Complete body status =>
        test_on_complete get_name body status
          (emit (Delivered (CbComplete body status)) (test_entry self msg w))
    | Error body error status =>
        test_on_error get_name body error status
          (emit (Delivered (CbError body error status)) (test_entry self msg w))
    | _ => test_entry self msg w
    end.
Proof.
  unfold test, perform_sync.
  set (h := on_complete _ _).
  assert (Hreq : request h = test_request self) by reflexivity.
  assert (Hp : progressfn h = None).
  { subst h. cbn [on_complete on_error progressfn].
    now rewrite (proj2 (proj2 (set_auth_callbacks self _))). }
  rewrite Hreq, (deliver_settle h _ _ Hp). unfold test_entry, test_exit.
  destruct (settle (net (test_request self))) as [body status | body error status | | p c nx] eqn:E;
    cbn [deliver]; subst h; cbn [on_complete on_error completefn errorfn].
  - now destruct (test_on_complete _ _ _ _) as [[r m] w'].
  - now destruct (test_on_error _ _ _ _ _) as [[r m] w'].
  - reflexivity.
  - exfalso. clear -E. induction (net (test_request self)); try discriminate. cbn in E. eauto.
Qed.

Lemma test_on_complete_locals (name body : string) (status : N) (fr : Frame TestLocals) :
  fst (test_on_complete name body status fr) = classify body (snd (fst fr)).
Proof.
  destruct fr as [[res msg] w].
  unfold test_on_complete, test_try, classify, BOOST_LOG_TRIVIAL, emit.
  cbn [fst snd].
  destruct (read_json body) as [ptree | e]; [|reflexivity].
  destruct (get_optional ptree "version") as [v|]; [|reflexivity].
  destruct (get_optional ptree "name") as [n|]; cbn [validate_version_text].
  - unfold Str.starts_with. destruct (prefix "Repetier-Server" n); cbn [negb fst].
    + reflexivity.
    + unfold from_u8. now rewrite format_mismatch.
  - reflexivity.
Qed.

Lemma test_complete (self : RepetierServer) (msg : wxString) (w : World)
    (body : string) (status : N) :
  settle (net (test_request self)) = Complete body status ->
  res_of (test self msg w) = fst (classify body msg)
  /\ msg_of (test self msg w) = snd (classify body msg).
Proof.
  intros E. rewrite test_unfold, E. unfold res_of, msg_of, test_exit. cbn [fst snd].
  rewrite test_on_complete_locals. now split.
Qed.

Lemma test_error (self : RepetierServer) (msg : wxString) (w : World)
    (body error : string) (status : N) :
  settle (net (test_request self)) = Error body error status ->
  res_of (test self msg w) = false
  /\ msg_of (test self msg w) = format_error body error status.
Proof.
  intros E. rewrite test_unfold, E. unfold res_of, msg_of, test_exit. now cbn.
Qed.

Lemma settle_terminal (s : HttpScript) :
  (exists body status, settle s = Complete body status)
  \/ (exists body error status, settle s = Error body error status)
  \/ settle s = Silent.
Proof.
  induction s as [body status | body error status | | progress cancel next IH]; cbn; eauto 6.
Qed.

Lemma test_silent (self : RepetierServer) (msg : wxString) (w : World) :
  settle (net (test_request self)) = Silent ->
  test self msg w = test_exit (test_entry self msg w).
Proof. intros E. now rewrite test_unfold, E. Qed.

(** ** The URL builder *)

(** C4: [make_url] on the three example hosts gives the three example URLs,
    and on every host it follows the rule of the specification: a host with
    an [http://] or [https://] scheme is concatenated with the path, with a
    slash in between only when the host does not end with one; a host without
    scheme is prefixed with [http://] and joined with a slash. *)
Theorem make_url_examples_and_rule :
  (forall k c p,
     make_url {| host := "example.com"; apikey := k; cafile := c; printername := p |}
       "printer/info" = "http://example.com/printer/info")
  /\ (forall k c p,
        make_url {| host := "http://example.com/"; apikey := k; cafile := c; printername := p |}
          "printer/info" = "http://example.com/printer/info")
  /\ (forall k c p,
        make_url {| host := "https://example.com"; apikey := k; cafile := c; printername := p |}
          "printer/info" = "https://example.com/printer/info")
  /\ (forall self path, make_url self path = makeUrl_spec (host self) path).
Proof.
  repeat split; try reflexivity. apply make_url_refines.
Qed.

(** ** The connectivity probe *)

(** C2: when the transport completes and the body is JSON with a ["version"]
    key, the probe succeeds exactly when ["name"] is absent or its value
    starts with ["Repetier-Server"]. *)
Theorem test_succeeds_iff_name_acceptable (self : RepetierServer) (msg : wxString)
    (w : World) (body : string) (status : N) (ptree : ptree) (version : string) :
  settle (net (test_request self)) = Complete body status ->
  read_json body = Value ptree ->
  get_optional ptree "version" = Some version ->
  res_of (test self msg w) = true
  <-> (get_optional ptree "name" = None
       \/ exists rest, get_optional ptree "name" = Some ("Repetier-Server" ++ rest)).
Proof.
  intros Hc Hj Hv.
  rewrite (proj1 (test_complete self msg w body status Hc)).
  unfold classify. rewrite Hj, Hv.
  destruct (get_optional ptree "name") as [name|].
  - destruct (prefix "Repetier-Server" name) eqn:Hp; cbn [fst].
    + apply prefix_split in Hp. destruct Hp as [rest ->]. split; eauto.
    + split; [discriminate|]. intros [H | [rest H]]; [discriminate|].
      assert (Hname : name = "Repetier-Server" ++ rest) by congruence.
      assert (Hyes : prefix "Repetier-Server" name = true)
        by (apply prefix_split; eauto).
      congruence.
  - cbn [fst]. split; auto.
Qed.

(** C7: when the probe fails the server-family check (the transport
    completed, the body is JSON with ["version"], and ["name"] is present but
    does not start with ["Repetier-Server"]), the message reads
    "Mismatched type of print host: " followed by the name, so the unexpected
    name occurs in it. *)
Theorem test_mismatch_message_names_host (self : RepetierServer) (msg : wxString)
    (w : World) (body : string) (status : N) (ptree : ptree) (version name : string) :
  settle (net (test_request self)) = Complete body status ->
  read_json body = Value ptree ->
  get_optional ptree "version" = Some version ->
  get_optional ptree "name" = Some name ->
  (forall rest, name <> "Repetier-Server" ++ rest) ->
  res_of (test self msg w) = false
  /\ msg_of (test self msg w) = "Mismatched type of print host: " ++ name
  /\ Str.contains (msg_of (test self msg w)) name.
Proof.
  intros Hc Hj Hv Hn Hbad.
  destruct (test_complete self msg w body status Hc) as [-> Hm].
  assert (Hm' : msg_of (test self msg w) = "Mismatched type of print host: " ++ name).
  { rewrite Hm. unfold classify. rewrite Hj, Hv, Hn.
    destruct (prefix "Repetier-Server" name) eqn:Hp; [|reflexivity].
    apply prefix_split in Hp. destruct Hp as [rest ->]. now elim (Hbad rest). }
  repeat split.
  - unfold classify. rewrite Hj, Hv, Hn.
    destruct (prefix "Repetier-Server" name) eqn:Hp; [|reflexivity].
    apply prefix_split in Hp. destruct Hp as [rest ->]. now elim (Hbad rest).
  - exact Hm'.
  - rewrite Hm'. exists "Mismatched type of print host: ", "".
    now rewrite append_empty_r.
Qed.

(** C8: when the transport completes and the body is JSON without a
    ["version"] key, the probe fails and the caller's message is what it was
    on entry. *)
Theorem test_missing_version_is_silent (self : RepetierServer) (msg : wxString)
    (w : World) (body : string) (status : N) (ptree : ptree) :
  settle (net (test_request self)) = Complete body status ->
  read_json body = Value ptree ->
  get_optional ptree "version" = None ->
  res_of (test self msg w) = false /\ msg_of (test self msg w) = msg.
Proof.
  intros Hc Hj Hv.
  destruct (test_complete self msg w body status Hc) as [-> ->].
  unfold classify. now rewrite Hj, Hv.
Qed.

(** C9: when the transport completes and the body is not JSON, the parser's
    exception is raised inside the [try] block and handled there: the probe
    returns, as a failure, with the fixed message
    "Could not parse server response". *)
Theorem test_unparseable_body_is_caught (self : RepetierServer) (msg : wxString)
    (w : World) (body : string) (status : N) (e : std_exception) :
  settle (net (test_request self)) = Complete body status ->
  read_json body = Raise e ->
  (forall fr, test_try body fr = Raise e)
  /\ exists w', test self msg w = (false, "Could not parse server response", w').
Proof.
  intros Hc Hj. split.
  - intros fr. unfold test_try. now rewrite Hj.
  - destruct (test_complete self msg w body status Hc) as [Hr Hm].
    unfold classify in Hr, Hm. rewrite Hj in Hr, Hm. cbn in Hr, Hm.
    destruct (test self msg w) as [[r m] w'].
    unfold res_of, msg_of in Hr, Hm. cbn in Hr, Hm. subst. now exists w'.
Qed.

(** C10: a probe that returns success leaves the caller's message exactly as
    it was on entry; in particular when the transport completed, the body is
    JSON with ["version"], and ["name"] is absent or starts with
    ["Repetier-Server"]. *)
Theorem test_success_keeps_message (self : RepetierServer) (msg : wxString) (w : World) :
  (res_of (test self msg w) = true -> msg_of (test self msg w) = msg)
  /\ (forall body status ptree version,
        settle (net (test_request self)) = Complete body status ->
        read_json body = Value ptree ->
        get_optional ptree "version" = Some version ->
        (get_optional ptree "name" = None
         \/ exists rest, get_optional ptree "name" = Some ("Repetier-Server" ++ rest)) ->
        res_of (test self msg w) = true /\ msg_of (test self msg w) = msg).
Proof.
  assert (Hgen : res_of (test self msg w) = true -> msg_of (test self msg w) = msg).
  { destruct (settle_terminal (net (test_request self)))
      as [(body & status & E) | [(body & error & status & E) | E]].
    - destruct (test_complete self msg w body status E) as [-> ->].
      unfold classify.
      destruct (read_json body) as [ptree | e]; [|discriminate].
      destruct (get_optional ptree "version"); [|discriminate].
      destruct (get_optional ptree "name") as [name|]; [|reflexivity].
      destruct (prefix "Repetier-Server" name); [reflexivity | discriminate].
    - destruct (test_error self msg w body error status E) as [-> _]. discriminate.
    - now rewrite (test_silent self msg w E). }
  split; [exact Hgen|].
  intros body status ptree version Hc Hj Hv Hname.
  assert (Hres : res_of (test self msg w) = true).
  { rewrite (proj1 (test_complete self msg w body status Hc)).
    unfold classify. rewrite Hj, Hv.
    destruct Hname as [-> | [rest ->]]; [reflexivity|].
    assert (Hp : prefix "Repetier-Server" ("Repetier-Server" ++ rest) = true)
      by (apply prefix_split; eauto).
    now rewrite Hp. }
  split; [exact Hres | exact (Hgen Hres)].
Qed.

(** ** Facts about traces *)

Lemma error_calls_app (l l' : list Event) :
  error_calls (l ++ l')%list = (error_calls l ++ error_calls l')%list.
Proof. apply flat_map_app. Qed.

Lemma error_reports_app (l l' : list Event) :
  error_reports (l ++ l')%list = (error_reports l ++ error_reports l')%list.
Proof. apply flat_map_app. Qed.

Lemma performed_app (l l' : list Event) :
  performed (l ++ l')%list = (performed l ++ performed l')%list.
Proof. apply flat_map_app. Qed.

Lemma cancelled_app (l l' : list Event) :
  cancelled (l ++ l')%list <-> cancelled l \/ cancelled l'.
Proof.
  unfold cancelled. split.
  - intros (p & c & H). apply in_app_or in H. destruct H; eauto.
  - intros [(p & c & H) | (p & c & H)]; exists p, c; apply in_or_app; auto.
Qed.

Lemma test_on_complete_world (name body : string) (status : N) (fr : Frame TestLocals) :
  snd (test_on_complete name body status fr)
  = snd (BOOST_LOG_TRIVIAL trivial.debug "%1%: Got version: %2%" [AStr name; AStr body] fr).
Proof.
  destruct fr as [[res msg] w].
  unfold test_on_complete, test_try, BOOST_LOG_TRIVIAL, emit. cbn [fst snd].
  destruct (read_json body) as [ptree | e]; [|reflexivity].
  destruct (get_optional ptree "version") as [v|]; [|reflexivity].
  now destruct (negb (validate_version_text (get_optional ptree "name"))).
Qed.

Lemma test_world (self : RepetierServer) (msg : wxString) (w : World) :
  user (snd (test self msg w)) = user w
  /\ trace (snd (test self msg w))
     = (trace w
        ++ [Logged trivial.info "%1%: Get version at: %2%"
              [AStr get_name; AStr (make_url self "printer/info")];
            Performed (test_request self)]
        ++ test_tail (settle (net (test_request self))))%list.
Proof.
  rewrite test_unfold. unfold test_exit. cbn [snd].
  destruct (settle (net (test_request self))) as [body status | body error status | | p c nx];
    cbn [test_tail]; try rewrite test_on_complete_world;
    unfold test_on_error, test_entry, BOOST_LOG_TRIVIAL, emit; cbn [fst snd user trace];
    rewrite <- ?app_assoc; cbn [app]; split; reflexivity.
Qed.

Lemma test_request_is_get (self : RepetierServer) : is_post (test_request self) = false.
Proof.
  unfold is_post, test_request. now rewrite (proj1 (set_auth_request self _)).
Qed.

Lemma test_tail_quiet (s : HttpScript) :
  performed (test_tail s) = [] /\ error_calls (test_tail s) = []
  /\ ~ cancelled (test_tail s).
Proof.
  destruct s; cbn; repeat split; try reflexivity;
    intros (p & c & H); cbn in H; intuition discriminate.
Qed.

(** A probe that passes has seen no error report from the transport. *)
Lemma test_passed_no_report (self : RepetierServer) (msg : wxString) (w : World) :
  res_of (test self msg w) = true ->
  error_reports (test_tail (settle (net (test_request self)))) = [].
Proof.
  intros Hres.
  destruct (settle (net (test_request self))) as [body status | body error status | | p c nx] eqn:E;
    try reflexivity.
  destruct (test_error self msg w body error status E) as [Hf _]. congruence.
Qed.

(** ** Facts about the upload *)

Lemma upload_unfold (self : RepetierServer) (upload_data : PrintHostUpload)
    (prorgess_fn : ProgressFn) (error_fn : ErrorFn) (w : World) :
  upload self upload_data prorgess_fn error_fn w =
  if res_of (test self "" w) then
    deliver (upload_http self upload_data prorgess_fn error_fn)
      (net (upload_request self upload_data))
      (upload_entry self upload_data (snd (test self "" w)))
  else
    (false, call_error_fn error_fn (msg_of (test self "" w)) (snd (test self "" w))).
Proof.
  unfold upload. destruct (test self "" w) as [[ok m] w1].
  unfold res_of, msg_of. cbn [fst snd]. destruct ok; reflexivity.
Qed.

Lemma upload_request_url (self : RepetierServer) (upload_data : PrintHostUpload) :
  is_post (upload_request self upload_data) = true
  /\ url (upload_request self upload_data)
     = make_url self (upload_url_path self upload_data).
Proof.
  unfold is_post, upload_request, form_add_file, form_add, form_part, with_request.
  cbn [request method url].
  rewrite (proj1 (set_auth_request self _)), (proj1 (proj2 (set_auth_request self _))).
  now cbn.
Qed.

Ltac performed_norm :=
  rewrite ?performed_app; cbn [performed flat_map app]; rewrite ?app_nil_r.

(** The three closures of [upload] hand nothing to the transport. *)
Lemma upload_deliver_performed (self : RepetierServer) (upload_data : PrintHostUpload)
    (prorgess_fn : ProgressFn) (error_fn : ErrorFn) (s : HttpScript) (fr : Frame bool) :
  performed (trace (snd (deliver (upload_http self upload_data prorgess_fn error_fn) s fr)))
  = performed (trace (snd fr)).
Proof.
  apply (deliver_invariant
           (fun fr' => performed (trace (snd fr')) = performed (trace (snd fr))));
    [ | | | reflexivity].
  - intros fn body status fr' Hfn Hinv. injection Hfn as <-.
    unfold upload_on_complete, BOOST_LOG_TRIVIAL, emit. cbn [fst snd trace].
    performed_norm; exact Hinv.
  - intros fn body error status fr' Hfn Hinv. injection Hfn as <-.
    destruct fr' as [res w']. unfold upload_on_error, call_error_fn, BOOST_LOG_TRIVIAL, emit.
    cbn [fst snd trace] in *. performed_norm; exact Hinv.
  - intros fn progress cancel fr' Hfn Hinv. injection Hfn as <-.
    destruct fr' as [res w'].
    unfold upload_on_progress, call_progress_fn, BOOST_LOG_TRIVIAL, emit.
    cbn [fst snd trace user] in *.
    destruct (prorgess_fn progress cancel (user w')) as [[] u'];
      cbn [fst snd trace]; performed_norm; exact Hinv.
Qed.

(** The requests of one [upload] call: the probe, and the upload itself if
    and only if the probe passed. *)
Lemma upload_performed (self : RepetierServer) (upload_data : PrintHostUpload)
    (prorgess_fn : ProgressFn) (error_fn : ErrorFn) (u : U) :
  performed (trace (snd (upload self upload_data prorgess_fn error_fn (start u))))
  = test_request self
    :: (if res_of (test self "" (start u)) then [upload_request self upload_data] else []).
Proof.
  rewrite upload_unfold.
  destruct (test_world self "" (start u)) as [_ Htr].
  destruct (test_tail_quiet (settle (net (test_request self)))) as (Hq & _ & _).
  destruct (res_of (test self "" (start u))).
  - rewrite upload_deliver_performed.
    unfold upload_entry, BOOST_LOG_TRIVIAL, emit. cbn [fst snd trace].
    rewrite !performed_app, Htr, !performed_app, Hq. reflexivity.
  - unfold call_error_fn. cbn [snd trace].
    rewrite !performed_app, Htr, !performed_app, Hq. reflexivity.
Qed.

Lemma in_performed (r : Request) (tr : list Event) :
  In (Performed r) tr <-> In r (performed tr).
Proof.
  unfold performed. rewrite in_flat_map. split.
  - intros H. exists (Performed r). split; [exact H | now left].
  - intros (e & He & Hr). destruct e; cbn in Hr; try contradiction.
    destruct Hr as [-> | []]. exact He.
Qed.

Ltac not_cancelled Hc :=
  let p := fresh "p" in
  let c := fresh "c" in
  let H := fresh "H" in
  exfalso; destruct Hc as (p & c & H); cbn in H; intuition discriminate.

Lemma upload_on_complete_inv (body : string) (status : N) (fr : Frame bool) :
  upload_inv fr ->
  upload_inv (upload_on_complete get_name body status
                (emit (Delivered (CbComplete body status)) fr)).
Proof.
  destruct fr as [res w]. intros [Herr Hcan].
  unfold upload_inv, upload_on_complete, BOOST_LOG_TRIVIAL, emit in *.
  cbn [fst snd trace] in *. split.
  - rewrite !error_calls_app, !error_reports_app, Herr. reflexivity.
  - rewrite !cancelled_app. intros [[Hc | Hc] | Hc]; [ | not_cancelled Hc | not_cancelled Hc].
    destruct (Hcan Hc) as [-> Hin]. split; [reflexivity|].
    apply in_or_app; left. apply in_or_app; now left.
Qed.

Lemma upload_on_error_inv (error_fn : ErrorFn) (body error : string) (status : N)
    (fr : Frame bool) :
  upload_inv fr ->
  upload_inv (upload_on_error get_name error_fn body error status
                (emit (Delivered (CbError body error status)) fr)).
Proof.
  destruct fr as [res w]. intros [Herr Hcan].
  unfold upload_inv, upload_on_error, call_error_fn, BOOST_LOG_TRIVIAL, emit in *.
  cbn [fst snd trace] in *. split.
  - rewrite !error_calls_app, !error_reports_app, Herr. cbn.
    now rewrite <- !app_assoc.
  - rewrite !cancelled_app.
    intros [[[Hc | Hc] | Hc] | Hc];
      [ | not_cancelled Hc | not_cancelled Hc | not_cancelled Hc].
    destruct (Hcan Hc) as [_ Hin]. split; [reflexivity|].
    apply in_or_app; left. apply in_or_app; left. apply in_or_app; now left.
Qed.

Lemma upload_on_progress_inv (prorgess_fn : ProgressFn) (progress : Progress)
    (cancel : bool) (fr : Frame bool) :
  upload_inv fr ->
  upload_inv (snd (upload_on_progress prorgess_fn progress cancel
                     (emit (Delivered (CbProgress progress cancel)) fr))).
Proof.
  destruct fr as [res w]. intros [Herr Hcan].
  unfold upload_inv, upload_on_progress, call_progress_fn, BOOST_LOG_TRIVIAL, emit in *.
  cbn [fst snd trace user] in *.
  destruct (prorgess_fn progress cancel (user w)) as [[] u']; cbn [fst snd trace]; split.
  - rewrite !error_calls_app, !error_reports_app, Herr. reflexivity.
  - intros _. split; [reflexivity|]. apply in_or_app; right. now left.
  - rewrite !error_calls_app, !error_reports_app, Herr. reflexivity.
  - rewrite !cancelled_app. intros [[Hc | Hc] | Hc]; [ | not_cancelled Hc | not_cancelled Hc].
    destruct (Hcan Hc) as [-> Hin]. split; [reflexivity|].
    apply in_or_app; left. apply in_or_app; now left.
Qed.

Lemma upload_deliver_inv (self : RepetierServer) (upload_data : PrintHostUpload)
    (prorgess_fn : ProgressFn) (error_fn : ErrorFn) (s : HttpScript) (fr : Frame bool) :
  upload_inv fr ->
  upload_inv (deliver (upload_http self upload_data prorgess_fn error_fn) s fr).
Proof.
  apply (deliver_invariant upload_inv).
  - intros fn body status fr' Hfn. injection Hfn as <-. apply upload_on_complete_inv.
  - intros fn body error status fr' Hfn. injection Hfn as <-. apply upload_on_error_inv.
  - intros fn progress cancel fr' Hfn. injection Hfn as <-. apply upload_on_progress_inv.
Qed.

(** A passed probe leaves the upload a frame in which nothing was cancelled
    and no error was reported or surfaced. *)
Lemma upload_entry_inv (self : RepetierServer) (upload_data : PrintHostUpload) (u : U) :
  res_of (test self "" (start u)) = true ->
  upload_inv (upload_entry self upload_data (snd (test self "" (start u)))).
Proof.
  intros Hres.
  destruct (test_world self "" (start u)) as [_ Htr].
  destruct (test_tail_quiet (settle (net (test_request self)))) as (_ & Hec & Hnc).
  pose proof (test_passed_no_report self "" (start u) Hres) as Her.
  unfold upload_inv, upload_entry, BOOST_LOG_TRIVIAL, emit. cbn [fst snd trace].
  rewrite Htr. split.
  - rewrite !error_calls_app, !error_reports_app, Hec, Her. reflexivity.
  - rewrite !cancelled_app.
    intros [[[Hc | [Hc | Hc]] | Hc] | Hc]; try contradiction; not_cancelled Hc.
Qed.

(** ** The upload *)

(** C1: when the probe that opens an upload fails, [upload] invokes the
    caller's error callback with the probe's message (once, and on the
    caller's state as the probe found it), returns [false], and hands no POST
    to the transport. *)
Theorem upload_stops_when_probe_fails (self : RepetierServer)
    (upload_data : PrintHostUpload) (prorgess_fn : ProgressFn) (error_fn : ErrorFn)
    (u : U) (msg : wxString) (w : World) :
  test self "" (start u) = (false, msg, w) ->
  upload self upload_data prorgess_fn error_fn (start u)
  = (false, call_error_fn error_fn msg w)
  /\ user (call_error_fn error_fn msg w) = error_fn msg u
  /\ error_calls (trace (call_error_fn error_fn msg w)) = [msg]
  /\ filter is_post (performed (trace (call_error_fn error_fn msg w))) = [].
Proof.
  intros Htest.
  destruct (test_world self "" (start u)) as [Hu Htr].
  destruct (test_tail_quiet (settle (net (test_request self)))) as (Hq & Hec & _).
  rewrite Htest in Hu, Htr. cbn [snd start user trace] in Hu, Htr.
  repeat split.
  - rewrite upload_unfold, Htest. reflexivity.
  - unfold call_error_fn. cbn [user]. now rewrite Hu.
  - unfold call_error_fn. cbn [trace].
    rewrite error_calls_app, Htr, !error_calls_app, Hec. reflexivity.
  - unfold call_error_fn. cbn [trace].
    rewrite performed_app, Htr, !performed_app, Hq.
    cbn. now rewrite test_request_is_get.
Qed.

(** C3: when, during an upload, the caller's progress callback leaves the
    cancel flag set on some invocation, [upload] returns [false], the record
    "RepetierSerer: Upload canceled" is logged, and the caller's error
    callback has been invoked for the error reports of the transport and for
    nothing else: the cancellation adds no invocation. *)
Theorem upload_cancelled_fails_quietly (self : RepetierServer)
    (upload_data : PrintHostUpload) (prorgess_fn : ProgressFn) (error_fn : ErrorFn) (u : U) :
  cancelled (trace (snd (upload self upload_data prorgess_fn error_fn (start u)))) ->
  fst (upload self upload_data prorgess_fn error_fn (start u)) = false
  /\ In (Logged trivial.info "RepetierSerer: Upload canceled" [])
        (trace (snd (upload self upload_data prorgess_fn error_fn (start u))))
  /\ error_calls (trace (snd (upload self upload_data prorgess_fn error_fn (start u))))
     = error_reports (trace (snd (upload self upload_data prorgess_fn error_fn (start u)))).
Proof.
  rewrite upload_unfold.
  destruct (res_of (test self "" (start u))) eqn:Hres.
  - intros Hc.
    destruct (upload_deliver_inv self upload_data prorgess_fn error_fn
                (net (upload_request self upload_data)) _
                (upload_entry_inv self upload_data u Hres)) as [Herr Hcan].
    destruct (Hcan Hc) as [Hfalse Hin]. repeat split; assumption.
  - intros Hc. exfalso.
    destruct (test_world self "" (start u)) as [_ Htr].
    destruct (test_tail_quiet (settle (net (test_request self)))) as (_ & _ & Hnc).
    unfold call_error_fn in Hc. cbn [snd trace] in Hc.
    rewrite Htr in Hc. rewrite !cancelled_app in Hc.
    destruct Hc as [[Hc | [Hc | Hc]] | Hc]; try contradiction; not_cancelled Hc.
Qed.

(** C6: the path that [upload] hands to [make_url] is
    [/printer/job/{printername}] when [start_print] is set and
    [/printer/model/{printername}] when it is not, with the printer name as
    it stands; the POST goes to the URL built from that path, and it goes out
    whenever the probe passes. *)
Theorem upload_path_selects_job_or_model (self : RepetierServer)
    (upload_data : PrintHostUpload) (prorgess_fn : ProgressFn) (error_fn : ErrorFn) (u : U) :
  upload_url_path self upload_data
  = "/printer/" ++ (if start_print upload_data then "job" else "model")
      ++ "/" ++ printername self
  /\ (forall r,
        In (Performed r)
           (trace (snd (upload self upload_data prorgess_fn error_fn (start u)))) ->
        is_post r = true ->
        url r = make_url self
                  ("/printer/" ++ (if start_print upload_data then "job" else "model")
                     ++ "/" ++ printername self))
  /\ (res_of (test self "" (start u)) = true ->
      exists r,
        In (Performed r)
           (trace (snd (upload self upload_data prorgess_fn error_fn (start u))))
        /\ is_post r = true).
Proof.
  assert (Hpath : upload_url_path self upload_data
                  = "/printer/" ++ (if start_print upload_data then "job" else "model")
                      ++ "/" ++ printername self)
    by apply format_upload_path.
  destruct (upload_request_url self upload_data) as [Hpost Hurl].
  repeat split.
  - exact Hpath.
  - intros r Hin Hr. apply in_performed in Hin. rewrite upload_performed in Hin.
    destruct Hin as [<- | Hin]; [rewrite test_request_is_get in Hr; discriminate|].
    destruct (res_of (test self "" (start u))); [|contradiction].
    destruct Hin as [<- | []]. now rewrite Hurl, Hpath.
  - intros Hres. exists (upload_request self upload_data). split; [|exact Hpost].
    apply in_performed. rewrite upload_performed, Hres. right; now left.
Qed.

(** C5: on a host that does not end with a slash, the POST of [upload] goes
    to the base (the host, behind [http://] if it has no scheme) followed by
    [//printer/{job|model}/{printername}]: the slash that [make_url] inserts
    meets the slash that opens the upload path. *)
Theorem upload_url_doubles_slash (self : RepetierServer)
    (upload_data : PrintHostUpload) (prorgess_fn : ProgressFn) (error_fn : ErrorFn)
    (u : U) (r : Request) :
  ends_with_char (host self) "/" = false ->
  In (Performed r) (trace (snd (upload self upload_data prorgess_fn error_fn (start u)))) ->
  is_post r = true ->
  url r = (if has_scheme (host self) then host self else "http://" ++ host self)
            ++ "//printer/" ++ (if start_print upload_data then "job" else "model")
            ++ "/" ++ printername self.
Proof.
  intros Hend Hin Hr. apply in_performed in Hin. rewrite upload_performed in Hin.
  destruct Hin as [<- | Hin]; [rewrite test_request_is_get in Hr; discriminate|].
  destruct (res_of (test self "" (start u))); [|contradiction].
  destruct Hin as [<- | []].
  rewrite (proj2 (upload_request_url self upload_data)).
  unfold upload_url_path. rewrite format_upload_path, make_url_refines.
  unfold makeUrl_spec. rewrite Hend.
  destruct (has_scheme (host self)); [reflexivity|].
  rewrite append_assoc. reflexivity.
Qed.

(** ** More about the URL builder *)

Lemma back_nonempty (c : ascii) (s : string) : exists x, Str.back (String c s) = Some x.
Proof.
  revert c. induction s as [|d s IH]; intros c; [now exists c|].
  destruct (IH d) as [x Hx]. exists x.
  change (Str.back (String c (String d s))) with (Str.back (String d s)). exact Hx.
Qed.

Lemma back_app_char (s : string) (c : ascii) : Str.back (s ++ String c "") = Some c.
Proof.
  induction s as [|x s IH]; [reflexivity|].
  cbn [append]. destruct (s ++ String c "") as [|y t] eqn:E.
  - destruct s; discriminate.
  - change (Str.back (String x (String y t))) with (Str.back (String y t)). exact IH.
Qed.

Lemma ends_with_char_back (s : string) (c : ascii) :
  ends_with_char s c = match Str.back s with Some x => Ascii.eqb x c | None => false end.
Proof. unfold ends_with_char. now rewrite back_get_last. Qed.

Lemma ends_with_char_app (s : string) (c : ascii) : ends_with_char (s ++ String c "") c = true.
Proof. rewrite ends_with_char_back, back_app_char. apply Ascii.eqb_refl. Qed.

Lemma prefix_app (p s t : string) : prefix p s = true -> prefix p (s ++ t) = true.
Proof.
  rewrite !prefix_split. intros [rest ->]. exists (rest ++ t). apply append_assoc.
Qed.

Lemma has_scheme_app (h t : string) : has_scheme h = true -> has_scheme (h ++ t) = true.
Proof.
  unfold has_scheme. rewrite !orb_true_iff.
  intros [H | H]; [left | right]; now apply prefix_app.
Qed.

Lemma append_cancel_l (p a b : string) : p ++ a = p ++ b -> a = b.
Proof. induction p as [|c p IH]; cbn; intros H; [exact H | injection H; auto]. Qed.

Lemma length_append (a b : string) :
  String.length (a ++ b) = String.length a + String.length b.
Proof. induction a as [|c a IH]; cbn; [reflexivity | now rewrite IH]. Qed.

Lemma append_cancel_r (a b s : string) : a ++ s = b ++ s -> a = b.
Proof.
  revert b. induction a as [|c a IH]; intros [|d b] H; cbn in H.
  - reflexivity.
  - apply (f_equal String.length) in H. cbn in H. rewrite length_append in H. lia.
  - apply (f_equal String.length) in H. cbn in H. rewrite length_append in H. lia.
  - injection H as -> H. f_equal. now apply IH.
Qed.

(** The URL that [make_url] builds for the empty path: the base. *)
Lemma make_url_base_cases (self : RepetierServer) :
  make_url self "" =
  if has_scheme (host self) then
    if ends_with_char (host self) "/" then host self else host self ++ "/"
  else "http://" ++ host self ++ "/".
Proof.
  rewrite make_url_refines. unfold makeUrl_spec.
  destruct (has_scheme (host self)); [|reflexivity].
  destruct (ends_with_char (host self) "/"); [apply append_empty_r | reflexivity].
Qed.

Lemma make_url_from_base (self : RepetierServer) (path : string) :
  make_url self path = make_url self "" ++ path.
Proof.
  rewrite make_url_base_cases, make_url_refines. unfold makeUrl_spec.
  destruct (has_scheme (host self)).
  - destruct (ends_with_char (host self) "/"); [reflexivity|].
    now rewrite append_assoc.
  - now rewrite !append_assoc.
Qed.

Lemma make_url_base_shape (self : RepetierServer) :
  has_scheme (make_url self "") = true /\ ends_with_char (make_url self "") "/" = true.
Proof.
  rewrite make_url_base_cases.
  destruct (has_scheme (host self)) eqn:Hs.
  - destruct (ends_with_char (host self) "/") eqn:He.
    + now split.
    + split; [now apply has_scheme_app | apply ends_with_char_app].
  - split.
    { unfold has_scheme. apply orb_true_iff. left. apply prefix_split. eauto. }
    change ("http://" ++ host self ++ "/") with ("http://" ++ (host self ++ String "/" "")).
    rewrite <- append_assoc. apply ends_with_char_app.
Qed.

(** The path is appended as it stands: whatever [make_url] puts in front of
    it depends on the host alone, so a path can be extended after the fact,
    and two paths give the same URL only if they are the same path. *)
Theorem make_url_appends_path (self : RepetierServer) :
  (forall p q, make_url self (p ++ q) = make_url self p ++ q)
  /\ (forall p q, make_url self p = make_url self q -> p = q).
Proof.
  split.
  - intros p q. rewrite (make_url_from_base self (p ++ q)), (make_url_from_base self p).
    now rewrite append_assoc.
  - intros p q. rewrite (make_url_from_base self p), (make_url_from_base self q).
    apply append_cancel_l.
Qed.

(** Every URL that [make_url] builds is absolute, and the part in front of
    the path ends with a slash: a host without scheme gets [http://], a host
    with [https://] keeps it, and the slash is there whether or not the host
    brought one. *)
Theorem make_url_absolute (self : RepetierServer) (path : string) :
  has_scheme (make_url self path) = true
  /\ ends_with_char (make_url self "") "/" = true
  /\ (prefix "https://" (host self) = true ->
      prefix "https://" (make_url self path) = true)
  /\ (has_scheme (host self) = false ->
      prefix "http://" (make_url self path) = true).
Proof.
  destruct (make_url_base_shape self) as [Hs He].
  repeat split.
  - rewrite make_url_from_base. now apply has_scheme_app.
  - exact He.
  - intros Hh. rewrite make_url_refines. unfold makeUrl_spec, has_scheme.
    rewrite Hh, orb_true_r.
    destruct (ends_with_char (host self) "/"); now apply prefix_app.
  - intros Hn. rewrite make_url_refines. unfold makeUrl_spec. rewrite Hn.
    apply prefix_split. now exists (host self ++ "/" ++ path).
Qed.

(** Building on a base that [make_url] has built changes nothing: with the
    base as host, [make_url] adds neither scheme nor slash. *)
Theorem make_url_base_is_fixed (self : RepetierServer) (path : string) :
  make_url {| host := make_url self ""; apikey := apikey self;
              cafile := cafile self; printername := printername self |} path
  = make_url self path.
Proof.
  destruct (make_url_base_shape self) as [Hs He].
  rewrite (make_url_from_base self path), make_url_refines.
  unfold makeUrl_spec. cbn [host]. now rewrite Hs, He.
Qed.

(** [make_url] asks for the last character of the host only when the host
    starts with a scheme, and such a host has one: [host.back()] is never
    taken of an empty string. *)
Theorem make_url_back_is_defined (self : RepetierServer) :
  Str.found_at_0 (Str.find (host self) "http://")
  || Str.found_at_0 (Str.find (host self) "https://") = true ->
  exists c, Str.back (host self) = Some c.
Proof.
  rewrite !find_at_0_prefix, orb_true_iff.
  intros [H | H]; apply prefix_split in H; destruct H as [rest ->]; apply back_nonempty.
Qed.

(** ** The text shown after a failed probe *)

(** [get_test_failed_msg] puts the probe's message, as it stands, between a
    fixed opening and the note on the required server version; different
    probe messages give different texts. *)
Theorem get_test_failed_msg_embeds_message :
  (forall msg,
     get_test_failed_msg msg
     = "Could not connect to RepetierServer: " ++ msg
         ++ String "010" (String "010"
              "Note: Repetier-Server version at least 0.92.2 is required."))
  /\ (forall a b, get_test_failed_msg a = get_test_failed_msg b -> a = b).
Proof.
  assert (Hshape : forall msg,
             get_test_failed_msg msg
             = "Could not connect to RepetierServer: " ++ msg
                 ++ String "010" (String "010"
                      "Note: Repetier-Server version at least 0.92.2 is required.")).
  { intros msg. unfold get_test_failed_msg, test_failed_format, from_u8, ToUTF8. cbn.
    reflexivity. }
  split; [exact Hshape|].
  intros a b. rewrite !Hshape. intros H.
  apply append_cancel_l in H. now apply append_cancel_r in H.
Qed.

(** ** More about the probe *)

Lemma set_auth_trust {Loc} (self : RepetierServer) (h : Http Loc) :
  headers (request (set_auth self h))
  = (headers (request h) ++ [("X-Api-Key", apikey self)])%list
  /\ ca (request (set_auth self h))
     = if Str.empty (cafile self) then ca (request h) else Some (cafile self).
Proof. unfold set_auth. destruct (Str.empty (cafile self)); now cbn. Qed.

Lemma test_request_fields (self : RepetierServer) :
  method (test_request self) = GET
  /\ url (test_request self) = make_url self "printer/info"
  /\ headers (test_request self) = [("X-Api-Key", apikey self)]
  /\ ca (test_request self) = auth_ca self
  /\ form (test_request self) = [].
Proof.
  unfold test_request, auth_ca.
  destruct (set_auth_request self (@Http_get TestLocals (make_url self "printer/info")))
    as (-> & -> & ->).
  destruct (set_auth_trust self (@Http_get TestLocals (make_url self "printer/info")))
    as (-> & ->).
  now cbn.
Qed.

Lemma progress_calls_app (l l' : list Event) :
  progress_calls (l ++ l')%list = (progress_calls l ++ progress_calls l')%list.
Proof. apply flat_map_app. Qed.

Lemma progress_reports_app (l l' : list Event) :
  progress_reports (l ++ l')%list = (progress_reports l ++ progress_reports l')%list.
Proof. apply flat_map_app. Qed.

Lemma test_tail_no_progress (s : HttpScript) :
  progress_calls (test_tail s) = [] /\ progress_reports (test_tail s) = [].
Proof. destruct s; now cbn. Qed.

(** One probe is one request: a GET for [printer/info] under the configured
    host, with the API key in the [X-Api-Key] header (empty or not), the CA
    file if and only if one is configured, and no form.  The probe neither
    invokes a callback of the caller nor touches the caller's state. *)
Theorem test_performs_one_authenticated_get (self : RepetierServer) (msg : wxString) (u : U) :
  (exists r,
     performed (trace (snd (test self msg (start u)))) = [r]
     /\ method r = GET
     /\ url r = make_url self "printer/info"
     /\ headers r = [("X-Api-Key", apikey self)]
     /\ ca r = (if Str.empty (cafile self) then None else Some (cafile self))
     /\ form r = [])
  /\ user (snd (test self msg (start u))) = u
  /\ error_calls (trace (snd (test self msg (start u)))) = []
  /\ progress_calls (trace (snd (test self msg (start u)))) = [].
Proof.
  destruct (test_world self msg (start u)) as [Hu Htr].
  destruct (test_tail_quiet (settle (net (test_request self)))) as (Hq & Hec & _).
  destruct (test_tail_no_progress (settle (net (test_request self)))) as (Hpc & _).
  destruct (test_request_fields self) as (Hm & Hurl & Hh & Hca & Hf).
  repeat split.
  - exists (test_request self). rewrite Htr, !performed_app, Hq.
    repeat split; assumption.
  - exact Hu.
  - now rewrite Htr, !error_calls_app, Hec.
  - now rewrite Htr, !progress_calls_app, Hpc.
Qed.

(** When the transport reports an error, the probe fails with the formatted
    error as message, whatever the message was on entry, and the error is
    logged. *)
Theorem test_transport_error_is_formatted (self : RepetierServer) (msg : wxString)
    (w : World) (body error : string) (status : N) :
  settle (net (test_request self)) = Error body error status ->
  res_of (test self msg w) = false
  /\ msg_of (test self msg w) = format_error body error status
  /\ In (Logged trivial.error "%1%: Error getting version: %2%, HTTP %3%, body: `%4%`"
           [AStr get_name; AStr error; ANum status; AStr body])
        (trace (snd (test self msg w))).
Proof.
  intros E. destruct (test_error self msg w body error status E) as [Hr Hm].
  destruct (test_world self msg w) as [_ Htr].
  repeat split; [exact Hr | exact Hm |].
  rewrite Htr, E. apply in_or_app; right. apply in_or_app; right. cbn. auto.
Qed.

(** The probe fails in exactly four situations: the transport reports an
    error, the body is not JSON, the JSON has no ["version"], or it has a
    ["name"] that does not start with ["Repetier-Server"].  In particular a
    transport that ends without a terminal callback leaves the probe a
    success. *)
Theorem test_fails_iff (self : RepetierServer) (msg : wxString) (w : World) :
  res_of (test self msg w) = false
  <-> ((exists body error status,
          settle (net (test_request self)) = Error body error status)
       \/ (exists body status,
             settle (net (test_request self)) = Complete body status
             /\ match read_json body with
                | Raise _ => True
                | Value ptree =>
                    get_optional ptree "version" = None
                    \/ exists name,
                         get_optional ptree "name" = Some name
                         /\ Str.starts_with name "Repetier-Server" = false
                end)).
Proof.
  destruct (settle_terminal (net (test_request self)))
    as [(body & status & E) | [(body & error & status & E) | E]].
  - rewrite (proj1 (test_complete self msg w body status E)).
    split.
    + intros H. right. exists body, status. split; [exact E|].
      unfold classify in H. destruct (read_json body) as [ptree | e]; [|exact I].
      destruct (get_optional ptree "version"); [|now left].
      right. destruct (get_optional ptree "name") as [name|]; [|discriminate].
      exists name. split; [reflexivity|]. unfold Str.starts_with.
      now destruct (prefix "Repetier-Server" name).
    + intros [(b & e & s & E') | (b & s & E' & H)]; [congruence|].
      rewrite E in E'. injection E' as <- <-. unfold classify.
      destruct (read_json body) as [ptree | e]; [|reflexivity].
      destruct H as [-> | (name & -> & Hp)]; [reflexivity|].
      unfold Str.starts_with in Hp. rewrite Hp.
      now destruct (get_optional ptree "version").
  - rewrite (proj1 (test_error self msg w body error status E)).
    split; [intros _; left; eauto | reflexivity].
  - rewrite (test_silent self msg w E). unfold res_of, test_exit, test_entry. cbn.
    split; [discriminate|].
    intros [(b & e & s & E') | (b & s & E' & _)]; congruence.
Qed.

(** ** More about the upload *)

Lemma upload_request_fields (self : RepetierServer) (upload_data : PrintHostUpload) :
  method (upload_request self upload_data) = POST
  /\ headers (upload_request self upload_data) = [("X-Api-Key", apikey self)]
  /\ ca (upload_request self upload_data) = auth_ca self
  /\ form (upload_request self upload_data)
     = [Field "a" "upload";
        File "filename" (source_path upload_data) (fs_filename (upload_path upload_data))].
Proof.
  unfold upload_request, form_add_file, form_add, form_part, with_request, auth_ca.
  cbn [request method headers ca form].
  destruct (set_auth_request self
              (@Http_post bool (make_url self (upload_url_path self upload_data))))
    as (-> & _ & ->).
  destruct (set_auth_trust self
              (@Http_post bool (make_url self (upload_url_path self upload_data))))
    as (-> & ->).
  now cbn.
Qed.

Lemma cancelled_existsb (tr : list Event) :
  cancelled tr <-> existsb is_cancelling tr = true.
Proof.
  rewrite existsb_exists. unfold cancelled. split.
  - intros (p & c & H). now exists (ProgressCalled p c true).
  - intros (e & Hin & He). destruct e; try discriminate.
    cbn in He. subst. eauto.
Qed.

Lemma not_cancelled_existsb (tr : list Event) :
  ~ cancelled tr <-> existsb is_cancelling tr = false.
Proof. rewrite cancelled_existsb. now destruct (existsb is_cancelling tr). Qed.

(** The frames that the three closures of [upload] leave. *)
Lemma upload_on_complete_frame (body : string) (status : N) (res : bool) (w : World) :
  upload_on_complete get_name body status
    (emit (Delivered (CbComplete body status)) (res, w))
  = (res, {| user := user w;
             trace := (trace w
                       ++ [Delivered (CbComplete body status);
                           Logged trivial.debug "%1%: File uploaded: HTTP %2%: %3%"
                             [AStr get_name; ANum status; AStr body]])%list |}).
Proof.
  unfold upload_on_complete, BOOST_LOG_TRIVIAL, emit. cbn [fst snd user trace].
  now rewrite <- app_assoc.
Qed.

Lemma upload_on_error_frame (error_fn : ErrorFn) (body error : string) (status : N)
    (res : bool) (w : World) :
  upload_on_error get_name error_fn body error status
    (emit (Delivered (CbError body error status)) (res, w))
  = (false, {| user := error_fn (format_error body error status) (user w);
               trace := (trace w
                         ++ [Delivered (CbError body error status);
                             Logged trivial.error
                               "%1%: Error uploading file: %2%, HTTP %3%, body: `%4%`"
                               [AStr get_name; AStr error; ANum status; AStr body];
                             ErrorCalled (format_error body error status)])%list |}).
Proof.
  unfold upload_on_error, call_error_fn, BOOST_LOG_TRIVIAL, emit. cbn [fst snd user trace].
  now rewrite <- !app_assoc.
Qed.

Lemma upload_on_progress_frame (prorgess_fn : ProgressFn) (progress : Progress)
    (cancel res : bool) (w : World) :
  upload_on_progress prorgess_fn progress cancel
    (emit (Delivered (CbProgress progress cancel)) (res, w))
  = let cancel' := fst (prorgess_fn progress cancel (user w)) in
    (cancel',
     (if cancel' then false else res,
      {| user := snd (prorgess_fn progress cancel (user w));
         trace := (trace w
                   ++ [Delivered (CbProgress progress cancel);
                       ProgressCalled progress cancel cancel']
                   ++ (if cancel' then [cancel_record] else []))%list |})).
Proof.
  unfold upload_on_progress, call_progress_fn, BOOST_LOG_TRIVIAL, emit.
  cbn [fst snd user trace].
  destruct (prorgess_fn progress cancel (user w)) as [[] u']; cbn [fst snd trace user];
    rewrite <- ?app_assoc; reflexivity.
Qed.

(** An invariant of the frame that the three closures of [upload] keep holds
    when the exchange is over. *)
Lemma upload_deliver_keeps (Inv : Frame bool -> Prop) (error_fn : ErrorFn)
    (prorgess_fn : ProgressFn) :
  (forall body status res w,
     Inv (res, w) ->
     Inv (upload_on_complete get_name body status
            (emit (Delivered (CbComplete body status)) (res, w)))) ->
  (forall body error status res w,
     Inv (res, w) ->
     Inv (upload_on_error get_name error_fn body error status
            (emit (Delivered (CbError body error status)) (res, w)))) ->
  (forall progress cancel res w,
     Inv (res, w) ->
     Inv (snd (upload_on_progress prorgess_fn progress cancel
                 (emit (Delivered (CbProgress progress cancel)) (res, w))))) ->
  forall self upload_data s fr,
    Inv fr -> Inv (deliver (upload_http self upload_data prorgess_fn error_fn) s fr).
Proof.
  intros Hc He Hp self upload_data. apply deliver_invariant.
  - intros fn body status [res w] Hfn. injection Hfn as <-. apply Hc.
  - intros fn body error status [res w] Hfn. injection Hfn as <-. apply He.
  - intros fn progress cancel [res w] Hfn. injection Hfn as <-. apply Hp.
Qed.

Lemma upload_deliver_res_explained (self : RepetierServer) (upload_data : PrintHostUpload)
    (prorgess_fn : ProgressFn) (error_fn : ErrorFn) (s : HttpScript) (fr : Frame bool) :
  res_explained fr ->
  res_explained (deliver (upload_http self upload_data prorgess_fn error_fn) s fr).
Proof.
  apply upload_deliver_keeps; unfold res_explained.
  - intros body status res w H. rewrite upload_on_complete_frame. cbn [fst snd trace] in *.
    rewrite error_reports_app, existsb_app. cbn. now rewrite app_nil_r, orb_false_r.
  - intros body error status res w H. rewrite upload_on_error_frame. cbn [fst snd trace].
    rewrite error_reports_app. cbn. split; [discriminate|].
    intros [Hnil _]. now apply app_eq_nil in Hnil.
  - intros progress cancel res w H. rewrite upload_on_progress_frame.
    cbn [fst snd trace] in *.
    destruct (fst (prorgess_fn progress cancel (user w))).
    + rewrite existsb_app. cbn. rewrite orb_true_r. split; [discriminate | intros [_ F]; discriminate].
    + rewrite error_reports_app, existsb_app. cbn. now rewrite !app_nil_r, orb_false_r.
Qed.

Lemma upload_deliver_progress_faithful (self : RepetierServer)
    (upload_data : PrintHostUpload) (prorgess_fn : ProgressFn) (error_fn : ErrorFn)
    (s : HttpScript) (fr : Frame bool) :
  progress_faithful fr ->
  progress_faithful (deliver (upload_http self upload_data prorgess_fn error_fn) s fr).
Proof.
  apply upload_deliver_keeps; unfold progress_faithful.
  - intros body status res w [H1 H2]. rewrite upload_on_complete_frame.
    cbn [fst snd trace] in *.
    rewrite progress_calls_app, progress_reports_app, !filter_app, !length_app, H1, H2.
    now cbn.
  - intros body error status res w [H1 H2]. rewrite upload_on_error_frame.
    cbn [fst snd trace] in *.
    rewrite progress_calls_app, progress_reports_app, !filter_app, !length_app, H1, H2.
    now cbn.
  - intros progress cancel res w [H1 H2]. rewrite upload_on_progress_frame.
    cbn [fst snd trace] in *.
    rewrite !progress_calls_app, !progress_reports_app, !filter_app, !length_app, H1, H2.
    destruct (fst (prorgess_fn progress cancel (user w))); now cbn.
Qed.

(** The transport reports at most one error per exchange. *)
Lemma upload_deliver_one_report (self : RepetierServer) (upload_data : PrintHostUpload)
    (prorgess_fn : ProgressFn) (error_fn : ErrorFn) (s : HttpScript) :
  forall fr,
    List.length (error_reports
                   (trace (snd (deliver (upload_http self upload_data prorgess_fn error_fn)
                                  s fr))))
    <= S (List.length (error_reports (trace (snd fr)))).
Proof.
  induction s as [body status | body error status | | progress cancel next IH];
    intros [res w]; cbn [deliver upload_http on_progress on_error on_complete
                                completefn errorfn progressfn].
  - rewrite upload_on_complete_frame. cbn [snd trace].
    rewrite error_reports_app, length_app. cbn. lia.
  - rewrite upload_on_error_frame. cbn [snd trace].
    rewrite error_reports_app, length_app. cbn. lia.
  - cbn. lia.
  - rewrite upload_on_progress_frame. cbv zeta.
    eapply PeanoNat.Nat.le_trans; [apply IH|]. cbn [snd trace].
    rewrite !error_reports_app, !length_app.
    destruct (fst (prorgess_fn progress cancel (user w))); cbn; lia.
Qed.

Lemma test_trace_quiet (self : RepetierServer) (msg : wxString) (u : U) :
  error_calls (trace (snd (test self msg (start u)))) = []
  /\ progress_calls (trace (snd (test self msg (start u)))) = []
  /\ progress_reports (trace (snd (test self msg (start u)))) = []
  /\ filter is_cancel_record (trace (snd (test self msg (start u)))) = []
  /\ filter is_cancelling (trace (snd (test self msg (start u)))) = []
  /\ existsb is_cancelling (trace (snd (test self msg (start u)))) = false
  /\ (res_of (test self msg (start u)) = true ->
      error_reports (trace (snd (test self msg (start u)))) = []).
Proof.
  destruct (test_world self msg (start u)) as [_ Htr].
  pose proof (test_passed_no_report self msg (start u)) as Hrep.
  rewrite Htr. cbn [start trace app].
  destruct (settle (net (test_request self))); cbn in *; repeat split; auto.
Qed.

Lemma upload_entry_trace (self : RepetierServer) (upload_data : PrintHostUpload) (w : World) :
  fst (upload_entry self upload_data w) = true
  /\ trace (snd (upload_entry self upload_data w))
     = (trace w
        ++ [Logged trivial.info
              "%1%: Uploading file %2% at %3%, filename: %4%, path: %5%, print: %6%"
              [AStr get_name; AStr (source_path upload_data);
               AStr (make_url self (upload_url_path self upload_data));
               AStr (fs_filename (upload_path upload_data));
               AStr (fs_parent_path (upload_path upload_data));
               ABool (start_print upload_data)];
            Performed (upload_request self upload_data)])%list.
Proof.
  unfold upload_entry, BOOST_LOG_TRIVIAL, emit. cbn [fst snd trace].
  now rewrite <- app_assoc.
Qed.

(** [upload] returns [true] exactly when the caller has heard of no failure:
    the error callback was not invoked and no progress call left the cancel
    flag set.  A [false] is never unexplained. *)
Theorem upload_succeeds_iff_nothing_reported (self : RepetierServer)
    (upload_data : PrintHostUpload) (prorgess_fn : ProgressFn) (error_fn : ErrorFn) (u : U) :
  fst (upload self upload_data prorgess_fn error_fn (start u)) = true
  <-> error_calls (trace (snd (upload self upload_data prorgess_fn error_fn (start u)))) = []
      /\ ~ cancelled (trace (snd (upload self upload_data prorgess_fn error_fn (start u)))).
Proof.
  rewrite upload_unfold.
  destruct (test_trace_quiet self "" u) as (Hec & _ & _ & _ & _ & Hex & Her).
  destruct (res_of (test self "" (start u))) eqn:Hres.
  - destruct (upload_entry_trace self upload_data (snd (test self "" (start u))))
      as [Hfst Htr].
    assert (Hinv : upload_inv (upload_entry self upload_data (snd (test self "" (start u)))))
      by now apply upload_entry_inv.
    assert (Hexp : res_explained
                     (upload_entry self upload_data (snd (test self "" (start u))))).
    { unfold res_explained. rewrite Hfst, Htr, error_reports_app, existsb_app, Hex, (Her eq_refl).
      now cbn. }
    apply (upload_deliver_inv self upload_data prorgess_fn error_fn
             (net (upload_request self upload_data))) in Hinv.
    apply (upload_deliver_res_explained self upload_data prorgess_fn error_fn
             (net (upload_request self upload_data))) in Hexp.
    destruct Hinv as [Heq _]. unfold res_explained in Hexp.
    now rewrite Hexp, Heq, not_cancelled_existsb.
  - cbn [fst snd]. unfold call_error_fn. cbn [trace].
    split; [discriminate|]. intros [Hnil _]. rewrite error_calls_app in Hnil.
    now apply app_eq_nil in Hnil.
Qed.

(** The error callback is invoked at most once per upload: with the probe's
    message when the probe fails, and otherwise for the error that the
    transport reports for the POST, if it reports one. *)
Theorem upload_error_callback_at_most_once (self : RepetierServer)
    (upload_data : PrintHostUpload) (prorgess_fn : ProgressFn) (error_fn : ErrorFn) (u : U) :
  error_calls (trace (snd (upload self upload_data prorgess_fn error_fn (start u))))
  = (if res_of (test self "" (start u))
     then error_reports
            (trace (snd (upload self upload_data prorgess_fn error_fn (start u))))
     else [msg_of (test self "" (start u))])
  /\ List.length
       (error_calls (trace (snd (upload self upload_data prorgess_fn error_fn (start u)))))
     <= 1.
Proof.
  rewrite upload_unfold.
  destruct (test_trace_quiet self "" u) as (Hec & _ & _ & _ & _ & _ & Her).
  destruct (res_of (test self "" (start u))) eqn:Hres.
  - destruct (upload_entry_trace self upload_data (snd (test self "" (start u))))
      as [_ Htr].
    destruct (upload_deliver_inv self upload_data prorgess_fn error_fn
                (net (upload_request self upload_data)) _
                (upload_entry_inv self upload_data u Hres)) as [Heq _].
    split; [exact Heq|]. rewrite Heq.
    eapply PeanoNat.Nat.le_trans; [apply upload_deliver_one_report|].
    rewrite Htr, error_reports_app, (Her eq_refl). cbn. lia.
  - cbn [snd]. unfold call_error_fn. cbn [trace].
    rewrite error_calls_app, Hec. cbn. split; [reflexivity | lia].
Qed.

(** Every progress report of the transport reaches the caller's progress
    callback once, with the snapshot and the cancel flag the transport sent,
    in order; the callback is invoked for nothing else, and the flag it
    leaves is the flag the transport gets back. *)
Theorem upload_passes_progress_through (self : RepetierServer)
    (upload_data : PrintHostUpload) (prorgess_fn : ProgressFn) (error_fn : ErrorFn) (u : U) :
  progress_calls (trace (snd (upload self upload_data prorgess_fn error_fn (start u))))
  = progress_reports (trace (snd (upload self upload_data prorgess_fn error_fn (start u))))
  /\ (forall progress cancel fr,
        fst (upload_on_progress prorgess_fn progress cancel fr)
        = fst (prorgess_fn progress cancel (user (snd fr)))).
Proof.
  split.
  - rewrite upload_unfold.
    destruct (test_trace_quiet self "" u) as (_ & Hpc & Hpr & Hcr & Hcg & _ & _).
    destruct (res_of (test self "" (start u))).
    + apply upload_deliver_progress_faithful.
      destruct (upload_entry_trace self upload_data (snd (test self "" (start u))))
        as [_ Htr].
      unfold progress_faithful.
      rewrite Htr, progress_calls_app, progress_reports_app, !filter_app, Hpc, Hpr, Hcr, Hcg.
      now cbn.
    + cbn [snd]. unfold call_error_fn. cbn [trace].
      now rewrite progress_calls_app, progress_reports_app, Hpc, Hpr.
  - intros progress cancel [res w]. unfold upload_on_progress, call_progress_fn.
    cbn [snd]. now destruct (prorgess_fn progress cancel (user w)) as [[] u'].
Qed.

(** The record "RepetierSerer: Upload canceled" is logged once for each
    progress call that leaves the cancel flag set, and never otherwise. *)
Theorem upload_logs_each_cancellation (self : RepetierServer)
    (upload_data : PrintHostUpload) (prorgess_fn : ProgressFn) (error_fn : ErrorFn) (u : U) :
  List.length
    (filter is_cancel_record
       (trace (snd (upload self upload_data prorgess_fn error_fn (start u)))))
  = List.length
      (filter is_cancelling
         (trace (snd (upload self upload_data prorgess_fn error_fn (start u))))).
Proof.
  rewrite upload_unfold.
  destruct (test_trace_quiet self "" u) as (_ & Hpc & Hpr & Hcr & Hcg & _ & _).
  destruct (res_of (test self "" (start u))).
  - apply upload_deliver_progress_faithful.
    destruct (upload_entry_trace self upload_data (snd (test self "" (start u))))
      as [_ Htr].
    unfold progress_faithful.
    rewrite Htr, progress_calls_app, progress_reports_app, !filter_app, Hpc, Hpr, Hcr, Hcg.
    now cbn.
  - cbn [snd]. unfold call_error_fn. cbn [trace].
    now rewrite !filter_app, Hcr, Hcg.
Qed.

(** The requests of one upload: the probe's GET first, and after it, if and
    only if the probe passed, one POST to the upload URL, carrying the same
    API key header and CA file as the probe, the form field [a=upload], and
    the file part [filename] read from [source_path] under the file name of
    [upload_path]. *)
Theorem upload_performs_probe_then_post (self : RepetierServer)
    (upload_data : PrintHostUpload) (prorgess_fn : ProgressFn) (error_fn : ErrorFn) (u : U) :
  exists probe post,
    performed (trace (snd (upload self upload_data prorgess_fn error_fn (start u))))
    = probe :: (if res_of (test self "" (start u)) then [post] else [])
    /\ performed (trace (snd (test self "" (start u)))) = [probe]
    /\ method post = POST
    /\ url post = make_url self (upload_url_path self upload_data)
    /\ headers post = headers probe
    /\ ca post = ca probe
    /\ form post
       = [Field "a" "upload";
          File "filename" (source_path upload_data)
            (fs_filename (upload_path upload_data))].
Proof.
  exists (test_request self), (upload_request self upload_data).
  destruct (test_request_fields self) as (_ & _ & Hh & Hca & _).
  destruct (upload_request_fields self upload_data) as (Hm & Hh' & Hca' & Hf).
  destruct (upload_request_url self upload_data) as [_ Hurl].
  destruct (test_world self "" (start u)) as [_ Htr].
  destruct (test_tail_quiet (settle (net (test_request self)))) as (Hq & _ & _).
  repeat split; try assumption; try congruence.
  - apply upload_performed.
  - now rewrite Htr, !performed_app, Hq.
Qed.

(** ** The version text *)

(** [validate_version_text] accepts a missing name, and a name it accepts
    stays accepted whatever is appended to it (a version number, an edition);
    no name shorter than ["Repetier-Server"] is accepted. *)
Theorem validate_version_text_accepts_extensions :
  validate_version_text None = true
  /\ (forall name rest,
        validate_version_text (Some name) = true ->
        validate_version_text (Some (name ++ rest)) = true)
  /\ (forall name,
        validate_version_text (Some name) = true -> 15 <= String.length name).
Proof.
  repeat split.
  - intros name rest. cbn. unfold Str.starts_with. apply prefix_app.
  - intros name. cbn. unfold Str.starts_with. intros H.
    apply prefix_split in H. destruct H as [rest ->].
    rewrite length_append. cbn. lia.
Qed.

End Client.

(** ** The theorems at work on the sample environments *)

(** The probe of the sample server behind a network that answers with the
    Repetier body succeeds, and the name in that body is acceptable. *)
Lemma test_succeeds_iff_name_acceptable_witness :
  res_of nat (test nat (Sample.net_answering Sample.body_repetier) Sample.read_json
                Sample.format_error Sample.server "" (start nat 0)) = true
  <-> (get_optional (Node "" [Sample.leaf "version" "1.0";
                              Sample.leaf "name" "Repetier-Server 0.92.2"]) "name" = None
       \/ exists rest,
            get_optional (Node "" [Sample.leaf "version" "1.0";
                                   Sample.leaf "name" "Repetier-Server 0.92.2"]) "name"
            = Some ("Repetier-Server" ++ rest)).
Proof.
  apply (test_succeeds_iff_name_acceptable nat (Sample.net_answering Sample.body_repetier)
           Sample.read_json Sample.format_error Sample.server "" (start nat 0)
           Sample.body_repetier 200%N _ "1.0"); reflexivity.
Defined.

(** An OctoPrint server is told apart by name. *)
Lemma test_mismatch_message_names_host_witness :
  msg_of nat (test nat (Sample.net_answering Sample.body_octoprint) Sample.read_json
                Sample.format_error Sample.server "" (start nat 0))
  = "Mismatched type of print host: OctoPrint".
Proof.
  apply (test_mismatch_message_names_host nat (Sample.net_answering Sample.body_octoprint)
           Sample.read_json Sample.format_error Sample.server "" (start nat 0)
           Sample.body_octoprint 200%N
           (Node "" [Sample.leaf "version" "1.0"; Sample.leaf "name" "OctoPrint"])
           "1.0" "OctoPrint"); try reflexivity.
  intros rest H. discriminate H.
Defined.

(** A body without version fails the probe and leaves the message alone. *)
Lemma test_missing_version_is_silent_witness :
  res_of nat (test nat (Sample.net_answering Sample.body_versionless) Sample.read_json
                Sample.format_error Sample.server "untouched" (start nat 0)) = false
  /\ msg_of nat (test nat (Sample.net_answering Sample.body_versionless) Sample.read_json
                   Sample.format_error Sample.server "untouched" (start nat 0))
     = "untouched".
Proof.
  apply (test_missing_version_is_silent nat (Sample.net_answering Sample.body_versionless)
           Sample.read_json Sample.format_error Sample.server "untouched" (start nat 0)
           Sample.body_versionless 200%N
           (Node "" [Sample.leaf "name" "Repetier-Server 0.92.2"])); reflexivity.
Defined.

(** A web page instead of JSON ends in the parse-failure message. *)
Lemma test_unparseable_body_is_caught_witness :
  exists w',
    test nat (Sample.net_answering Sample.body_html) Sample.read_json
      Sample.format_error Sample.server "" (start nat 0)
    = (false, "Could not parse server response", w').
Proof.
  apply (test_unparseable_body_is_caught nat (Sample.net_answering Sample.body_html)
           Sample.read_json Sample.format_error Sample.server "" (start nat 0)
           Sample.body_html 200%N (json_parser_error "expected object or array"));
    reflexivity.
Defined.

(** A server that gives no name passes, and the message stays as it was. *)
Lemma test_success_keeps_message_witness :
  msg_of nat (test nat (Sample.net_answering Sample.body_anonymous) Sample.read_json
                Sample.format_error Sample.server "untouched" (start nat 0))
  = "untouched".
Proof.
  apply (proj2 (test_success_keeps_message nat (Sample.net_answering Sample.body_anonymous)
                  Sample.read_json Sample.format_error Sample.server "untouched"
                  (start nat 0))
           Sample.body_anonymous 200%N (Node "" [Sample.leaf "version" "1.0"]) "1.0");
    try reflexivity.
  left; reflexivity.
Defined.

(** With the network down, the upload reports the probe's message and
    performs the probe's GET only. *)
Lemma upload_stops_when_probe_fails_witness :
  upload nat Sample.net_down Sample.read_json Sample.format_error Sample.filename
    Sample.parent_path Sample.server Sample.job Sample.watch Sample.ignore_error
    (start nat 0)
  = (false,
     call_error_fn nat Sample.ignore_error "Connection refused"
       (snd (test nat Sample.net_down Sample.read_json Sample.format_error
               Sample.server "" (start nat 0)))).
Proof.
  apply (upload_stops_when_probe_fails nat Sample.net_down Sample.read_json
           Sample.format_error Sample.filename Sample.parent_path Sample.server
           Sample.job Sample.watch Sample.ignore_error 0 "Connection refused").
  reflexivity.
Defined.

(** A caller that cancels at the first progress report gets [false]. *)
Lemma upload_cancelled_fails_quietly_witness :
  fst (upload nat (Sample.net_answering Sample.body_repetier) Sample.read_json
         Sample.format_error Sample.filename Sample.parent_path Sample.server
         Sample.job Sample.cancel_at_once Sample.ignore_error (start nat 0)) = false
  /\ error_calls
       (trace nat
          (snd (upload nat (Sample.net_answering Sample.body_repetier) Sample.read_json
                  Sample.format_error Sample.filename Sample.parent_path Sample.server
                  Sample.job Sample.cancel_at_once Sample.ignore_error (start nat 0))))
     = [].
Proof.
  destruct (upload_cancelled_fails_quietly nat (Sample.net_answering Sample.body_repetier)
              Sample.read_json Sample.format_error Sample.filename Sample.parent_path
              Sample.server Sample.job Sample.cancel_at_once Sample.ignore_error 0)
    as (Hres & _ & Herr).
  - exists Sample.halfway, false. vm_compute.
    repeat (first [left; reflexivity | right]).
  - split; [exact Hres | rewrite Herr; reflexivity].
Defined.

(** The sample job is a print job, and its POST is built from the job path. *)
Lemma upload_path_selects_job_or_model_witness :
  exists r,
    In (Performed r)
       (trace nat
          (snd (upload nat (Sample.net_answering Sample.body_repetier) Sample.read_json
                  Sample.format_error Sample.filename Sample.parent_path Sample.server
                  Sample.job Sample.watch Sample.ignore_error (start nat 0))))
    /\ is_post r = true
    /\ url r = make_url Sample.server "/printer/job/Cartesian".
Proof.
  destruct (upload_path_selects_job_or_model nat
              (Sample.net_answering Sample.body_repetier) Sample.read_json
              Sample.format_error Sample.filename Sample.parent_path Sample.server
              Sample.job Sample.watch Sample.ignore_error 0) as (_ & Hurl & Hout).
  destruct (Hout eq_refl) as (r & Hin & Hpost).
  exists r. repeat split; [exact Hin | exact Hpost | exact (Hurl r Hin Hpost)].
Defined.

(** The POST for the sample job on host [example.com] goes to a URL with two
    slashes before [printer]. *)
Lemma upload_url_doubles_slash_witness :
  url (upload_request nat Sample.filename Sample.server Sample.job)
  = "http://example.com//printer/job/Cartesian".
Proof.
  apply (upload_url_doubles_slash nat (Sample.net_answering Sample.body_repetier)
           Sample.read_json Sample.format_error Sample.filename Sample.parent_path
           Sample.server Sample.job Sample.watch Sample.ignore_error 0
           (upload_request nat Sample.filename Sample.server Sample.job)).
  - reflexivity.
  - vm_compute. repeat (first [left; reflexivity | right]).
  - reflexivity.
Defined.

(** A path can be extended after the URL is built, and it can be read back
    off the URL. *)
Lemma make_url_appends_path_witness :
  make_url Sample.server ("printer/" ++ "info") = make_url Sample.server "printer/" ++ "info"
  /\ "printer/info" = "printer/info".
Proof.
  split.
  - apply (proj1 (make_url_appends_path Sample.server)).
  - apply (proj2 (make_url_appends_path Sample.server)). reflexivity.
Defined.

(** A host given with [https://] is reached over [https://]. *)
Lemma make_url_absolute_witness :
  prefix "https://"
    (make_url {| host := "https://example.com"; apikey := "secret"; cafile := "";
                 printername := "Cartesian" |} "printer/info") = true.
Proof.
  apply (make_url_absolute {| host := "https://example.com"; apikey := "secret";
                              cafile := ""; printername := "Cartesian" |} "printer/info").
  reflexivity.
Defined.

(** The host [http://example.com/] has a last character. *)
Lemma make_url_back_is_defined_witness :
  exists c,
    Str.back (host {| host := "http://example.com/"; apikey := ""; cafile := "";
                      printername := "" |}) = Some c.
Proof.
  apply (make_url_back_is_defined {| host := "http://example.com/"; apikey := "";
                                     cafile := ""; printername := "" |}).
  reflexivity.
Defined.

(** Equal texts come from equal probe messages. *)
Lemma get_test_failed_msg_embeds_message_witness :
  get_test_failed_msg "Connection refused" = get_test_failed_msg "Connection refused"
  /\ "Connection refused" = "Connection refused".
Proof.
  split; [reflexivity|].
  apply (proj2 get_test_failed_msg_embeds_message). reflexivity.
Defined.

(** With the network down, the probe's message is the transport's error. *)
Lemma test_transport_error_is_formatted_witness :
  msg_of nat (test nat Sample.net_down Sample.read_json Sample.format_error
                Sample.server "" (start nat 0))
  = "Connection refused".
Proof.
  apply (test_transport_error_is_formatted nat Sample.net_down Sample.read_json
           Sample.format_error Sample.server "" (start nat 0) "" "Connection refused" 0%N).
  reflexivity.
Defined.

(** With the network down, the probe fails. *)
Lemma test_fails_iff_witness :
  res_of nat (test nat Sample.net_down Sample.read_json Sample.format_error
                Sample.server "" (start nat 0)) = false.
Proof.
  apply (test_fails_iff nat Sample.net_down Sample.read_json Sample.format_error
           Sample.server "" (start nat 0)).
  left. exists "", "Connection refused", 0%N. reflexivity.
Defined.

(** A caller that only watches, on a network that answers, sees the upload
    succeed. *)
Lemma upload_succeeds_iff_nothing_reported_witness :
  fst (upload nat (Sample.net_answering Sample.body_repetier) Sample.read_json
         Sample.format_error Sample.filename Sample.parent_path Sample.server
         Sample.job Sample.watch Sample.ignore_error (start nat 0)) = true.
Proof.
  apply (upload_succeeds_iff_nothing_reported nat
           (Sample.net_answering Sample.body_repetier) Sample.read_json
           Sample.format_error Sample.filename Sample.parent_path Sample.server
           Sample.job Sample.watch Sample.ignore_error 0).
  split; [reflexivity|].
  apply not_cancelled_existsb. reflexivity.
Defined.

(** The name of a current server is accepted with its version number. *)
Lemma validate_version_text_accepts_extensions_witness :
  validate_version_text (Some ("Repetier-Server" ++ " 0.92.2")) = true.
Proof.
  apply (proj1 (proj2 validate_version_text_accepts_extensions)). reflexivity.
Defined.
